(** * StaticSite: asset upload planning and CloudFront invalidation

    A shallow embedding of the planning logic of
    [pkg/platform/src/components/aws/static-site.ts]:
    [getContentType], [buildApp], [uploadAssets] and
    [createDistributionInvalidation].

    The Node libraries the component calls are modelled as follows.
    - [crypto.createHash("md5" | "sha256")] : the digests are implemented
      here ([Crypto.md5], [Crypto.sha256]) after RFC 1321 and FIPS 180-4 and
      checked against the published test vectors.
    - [path.extname] : implemented here after Node's posix algorithm.
    - [glob], [fs], [path.resolve], [child_process] : the file system and the
      glob walker are the environment of the component; they are the fields
      of the record [Env], and every theorem is stated for an arbitrary
      environment. *)

From Stdlib Require Import ZArith List Bool Arith Lia Permutation.
From Stdlib Require Import Strings.String Strings.Ascii Strings.Byte.
Import ListNotations.

Local Open Scope string_scope.
Local Open Scope list_scope.

(** String concatenation, kept apart from the [++] of lists. *)
Infix "^^" := String.append (at level 60, right associativity).

(* ================================================================== *)
(** ** Node's [crypto] digests *)

Module Crypto.

Local Open Scope Z_scope.

Definition bytes := list byte.

Definition byte_to_Z (b : byte) : Z := Z.of_N (Byte.to_N b).

(** 32-bit words as [Z] with the wrap-around written out. *)
Definition w32 (x : Z) : Z := Z.land x 0xffffffff.
Definition add32 (x y : Z) : Z := w32 (x + y).
Definition not32 (x : Z) : Z := Z.lxor (w32 x) 0xffffffff.
Definition rotl32 (x : Z) (n : Z) : Z :=
  w32 (Z.lor (Z.shiftl (w32 x) n) (Z.shiftr (w32 x) (32 - n))).
Definition rotr32 (x : Z) (n : Z) : Z :=
  w32 (Z.lor (Z.shiftr (w32 x) n) (Z.shiftl (w32 x) (32 - n))).

Definition nthZ (l : list Z) (i : nat) : Z := nth i l 0.

(** [blocks n l] cuts [l] into [n] blocks of 64 bytes. *)
Fixpoint blocks (n : nat) (l : list Z) : list (list Z) :=
  match n with
  | O => []
  | S k => firstn 64 l :: blocks k (skipn 64 l)
  end.

(** [words_of f n l] reads [n] 4-byte words from [l] with [f]. *)
Fixpoint words_of (f : Z -> Z -> Z -> Z -> Z) (n : nat) (l : list Z)
  : list Z :=
  match n with
  | O => []
  | S k =>
      f (nthZ l 0) (nthZ l 1) (nthZ l 2) (nthZ l 3)
        :: words_of f k (skipn 4 l)
  end.

Definition le_word (b0 b1 b2 b3 : Z) : Z :=
  b0 + Z.shiftl b1 8 + Z.shiftl b2 16 + Z.shiftl b3 24.
Definition be_word (b0 b1 b2 b3 : Z) : Z :=
  b3 + Z.shiftl b2 8 + Z.shiftl b1 16 + Z.shiftl b0 24.

Definition le_bytes (nbytes : nat) (x : Z) : list Z :=
  map (fun i => Z.land (Z.shiftr x (8 * Z.of_nat i)) 0xff) (seq 0 nbytes).
Definition be_bytes (nbytes : nat) (x : Z) : list Z :=
  rev (le_bytes nbytes x).

(** Padding shared by both digests: a [0x80] byte, zeros up to 56 modulo
    64, then the bit length on 8 bytes written by [len_bytes]. *)
Definition pad (len_bytes : Z -> list Z) (msg : list Z) : list Z :=
  let n := Z.of_nat (List.length msg) in
  let zeros := Z.to_nat ((55 - n) mod 64) in
  (msg ++ [0x80] ++ repeat 0 zeros
     ++ len_bytes (Z.land (8 * n) 0xffffffffffffffff))%list.

Definition hex_digit (d : Z) : ascii :=
  ascii_of_nat (Z.to_nat (if d <? 10 then 48 + d else 87 + d)).

Definition hex_of_byte (b : Z) : string :=
  String (hex_digit (Z.shiftr b 4)) (String (hex_digit (Z.land b 0xf)) "").

Definition hex (l : list Z) : string :=
  fold_right (fun b acc => (hex_of_byte b ++ acc)%string) ""%string l.

(** *** MD5 (RFC 1321) *)

Definition md5_K : list Z :=
  [ 0xd76aa478; 0xe8c7b756; 0x242070db; 0xc1bdceee;
    0xf57c0faf; 0x4787c62a; 0xa8304613; 0xfd469501;
    0x698098d8; 0x8b44f7af; 0xffff5bb1; 0x895cd7be;
    0x6b901122; 0xfd987193; 0xa679438e; 0x49b40821;
    0xf61e2562; 0xc040b340; 0x265e5a51; 0xe9b6c7aa;
    0xd62f105d; 0x02441453; 0xd8a1e681; 0xe7d3fbc8;
    0x21e1cde6; 0xc33707d6; 0xf4d50d87; 0x455a14ed;
    0xa9e3e905; 0xfcefa3f8; 0x676f02d9; 0x8d2a4c8a;
    0xfffa3942; 0x8771f681; 0x6d9d6122; 0xfde5380c;
    0xa4beea44; 0x4bdecfa9; 0xf6bb4b60; 0xbebfbc70;
    0x289b7ec6; 0xeaa127fa; 0xd4ef3085; 0x04881d05;
    0xd9d4d039; 0xe6db99e5; 0x1fa27cf8; 0xc4ac5665;
    0xf4292244; 0x432aff97; 0xab9423a7; 0xfc93a039;
    0x655b59c3; 0x8f0ccc92; 0xffeff47d; 0x85845dd1;
    0x6fa87e4f; 0xfe2ce6e0; 0xa3014314; 0x4e0811a1;
    0xf7537e82; 0xbd3af235; 0x2ad7d2bb; 0xeb86d391 ].

Definition md5_S : list Z :=
  [ 7; 12; 17; 22; 7; 12; 17; 22; 7; 12; 17; 22; 7; 12; 17; 22;
    5;  9; 14; 20; 5;  9; 14; 20; 5;  9; 14; 20; 5;  9; 14; 20;
    4; 11; 16; 23; 4; 11; 16; 23; 4; 11; 16; 23; 4; 11; 16; 23;
    6; 10; 15; 21; 6; 10; 15; 21; 6; 10; 15; 21; 6; 10; 15; 21 ].

Definition state4 : Type := Z * Z * Z * Z.

Definition md5_round (M : list Z) (st : state4) (i : nat) : state4 :=
  let '(A, B, C, D) := st in
  let F :=
    if (i <? 16)%nat then Z.lor (Z.land B C) (Z.land (not32 B) D)
    else if (i <? 32)%nat then Z.lor (Z.land D B) (Z.land (not32 D) C)
    else if (i <? 48)%nat then Z.lxor B (Z.lxor C D)
    else Z.lxor C (Z.lor B (not32 D)) in
  let g :=
    if (i <? 16)%nat then i
    else if (i <? 32)%nat then ((5 * i + 1) mod 16)%nat
    else if (i <? 48)%nat then ((3 * i + 5) mod 16)%nat
    else ((7 * i) mod 16)%nat in
  let F' := add32 (add32 (add32 F A) (nthZ md5_K i)) (nthZ M g) in
  (D, add32 B (rotl32 F' (nthZ md5_S i)), B, C).

Definition md5_block (st : state4) (blk : list Z) : state4 :=
  let M := words_of le_word 16 blk in
  let '(a0, b0, c0, d0) := st in
  let '(A, B, C, D) := fold_left (md5_round M) (seq 0 64) st in
  (add32 a0 A, add32 b0 B, add32 c0 C, add32 d0 D).

Definition md5_init : state4 :=
  (0x67452301, 0xefcdab89, 0x98badcfe, 0x10325476).

Definition md5_digest (msg : bytes) : list Z :=
  let p := pad (le_bytes 8) (map byte_to_Z msg) in
  let '(A, B, C, D) :=
    fold_left md5_block (blocks (List.length p / 64) p) md5_init in
  (le_bytes 4 A ++ le_bytes 4 B ++ le_bytes 4 C ++ le_bytes 4 D)%list.

(** [crypto.createHash("md5").update(msg).digest("hex")] *)
Definition md5 (msg : bytes) : string := hex (md5_digest msg).

(** *** SHA-256 (FIPS 180-4) *)

(** The constants are derived as the standard defines them, from the
    first 64 primes: the first 32 bits of the fractional parts of their
    cube roots (round constants) and of the square roots of the first 8
    (initial hash value). *)

Definition is_prime (n : nat) : bool :=
  forallb (fun d => negb ((n mod d) =? 0)%nat) (seq 2 (n - 2)).

Definition primes64 : list Z :=
  Eval vm_compute in map Z.of_nat (filter is_prime (seq 2 310)).

(** The integer cube root, found bit by bit from bit 40 down. *)
Definition icbrt (n : Z) : Z :=
  fold_left
    (fun r k =>
       let r' := r + Z.shiftl 1 (Z.of_nat k) in
       if r' * r' * r' <=? n then r' else r)
    (rev (seq 0 41)) 0.

Definition frac32_cbrt (p : Z) : Z := w32 (icbrt (Z.shiftl p 96)).
Definition frac32_sqrt (p : Z) : Z := w32 (Z.sqrt (Z.shiftl p 64)).

Definition sha256_K : list Z :=
  Eval vm_compute in map frac32_cbrt primes64.

Definition sha256_init : list Z :=
  Eval vm_compute in map frac32_sqrt (firstn 8 primes64).

Definition xor3 (x y z : Z) : Z := Z.lxor x (Z.lxor y z).

Definition small_sigma0 (x : Z) : Z :=
  xor3 (rotr32 x 7) (rotr32 x 18) (Z.shiftr (w32 x) 3).
Definition small_sigma1 (x : Z) : Z :=
  xor3 (rotr32 x 17) (rotr32 x 19) (Z.shiftr (w32 x) 10).
Definition big_sigma0 (x : Z) : Z :=
  xor3 (rotr32 x 2) (rotr32 x 13) (rotr32 x 22).
Definition big_sigma1 (x : Z) : Z :=
  xor3 (rotr32 x 6) (rotr32 x 11) (rotr32 x 25).

(** The message schedule: 16 words of the block, then 48 derived ones. *)
Definition sha256_extend (W : list Z) (t : nat) : list Z :=
  (W ++ [ add32 (add32 (small_sigma1 (nthZ W (t - 2))) (nthZ W (t - 7)))
                (add32 (small_sigma0 (nthZ W (t - 15))) (nthZ W (t - 16))) ])%list.

Definition sha256_schedule (blk : list Z) : list Z :=
  fold_left sha256_extend (seq 16 48) (words_of be_word 16 blk).

Definition state8 : Type := Z * Z * Z * Z * (Z * Z * Z * Z).

Definition sha256_round (W : list Z) (st : state8) (t : nat) : state8 :=
  let '(a, b, c, d, (e, f, g, h)) := st in
  let ch := Z.lxor (Z.land e f) (Z.land (not32 e) g) in
  let maj := xor3 (Z.land a b) (Z.land a c) (Z.land b c) in
  let T1 :=
    add32 (add32 (add32 h (big_sigma1 e)) (add32 ch (nthZ sha256_K t)))
          (nthZ W t) in
  let T2 := add32 (big_sigma0 a) maj in
  (add32 T1 T2, a, b, c, (add32 d T1, e, f, g)).

Definition state8_of (l : list Z) : state8 :=
  (nthZ l 0, nthZ l 1, nthZ l 2, nthZ l 3,
   (nthZ l 4, nthZ l 5, nthZ l 6, nthZ l 7)).

Definition list_of_state8 (st : state8) : list Z :=
  let '(a, b, c, d, (e, f, g, h)) := st in [a; b; c; d; e; f; g; h].

Definition sha256_block (H : list Z) (blk : list Z) : list Z :=
  let W := sha256_schedule blk in
  let out := fold_left (sha256_round W) (seq 0 64) (state8_of H) in
  map (fun p => add32 (fst p) (snd p)) (combine H (list_of_state8 out)).

Definition sha256_digest (msg : bytes) : list Z :=
  let p := pad (be_bytes 8) (map byte_to_Z msg) in
  flat_map (be_bytes 4)
    (fold_left sha256_block (blocks (List.length p / 64) p) sha256_init).

(** [crypto.createHash("sha256").update(msg).digest("hex")] *)
Definition sha256 (msg : bytes) : string := hex (sha256_digest msg).

End Crypto.

(* ================================================================== *)
(** ** JavaScript strings and Node's [path] *)

Module Js.

(** [s.endsWith(suffix)] *)
Definition endsWith (s suffix : string) : bool :=
  let n := String.length s in
  let m := String.length suffix in
  (m <=? n)%nat && String.eqb (substring (n - m) m s) suffix.

(** [xs.includes(x)] on an array of strings. *)
Definition includes (xs : list string) (x : string) : bool :=
  existsb (String.eqb x) xs.

(** The double quote character, for messages that quote a path. *)
Definition dquote : string := String (ascii_of_nat 34) "".

End Js.

Module Path.

Local Open Scope Z_scope.

Definition CHAR_FORWARD_SLASH : ascii := ascii_of_nat 47.
Definition CHAR_DOT : ascii := ascii_of_nat 46.

(** The locals of [posix.extname]; [-1] is the "not seen" mark. *)
Record ExtState : Type := mkExt {
  startDot : Z;
  startPart : Z;
  end_ : Z;
  matchedSlash : bool;
  preDotState : Z
}.

Definition ext_init : ExtState := mkExt (-1) 0 (-1) true 0.

(** One iteration of the right-to-left scan at index [i]; the boolean is
    [true] when the loop breaks. *)
Definition ext_step (code : ascii) (i : Z) (st : ExtState)
  : ExtState * bool :=
  if Ascii.eqb code CHAR_FORWARD_SLASH then
    if negb (matchedSlash st)
    then (mkExt (startDot st) (i + 1) (end_ st) (matchedSlash st)
                (preDotState st), true)
    else (st, false)
  else
    let st1 :=
      if end_ st =? -1
      then mkExt (startDot st) (startPart st) (i + 1) false (preDotState st)
      else st in
    let st2 :=
      if Ascii.eqb code CHAR_DOT then
        if startDot st1 =? -1
        then mkExt i (startPart st1) (end_ st1) (matchedSlash st1)
                   (preDotState st1)
        else if negb (preDotState st1 =? 1)
        then mkExt (startDot st1) (startPart st1) (end_ st1)
                   (matchedSlash st1) 1
        else st1
      else if negb (startDot st1 =? -1)
      then mkExt (startDot st1) (startPart st1) (end_ st1)
                 (matchedSlash st1) (-1)
      else st1 in
    (st2, false).

(** [for (let i = path.length - 1; i >= 0; --i)]: [n] is [i + 1]. *)
Fixpoint ext_loop (path : string) (n : nat) (st : ExtState) : ExtState :=
  match n with
  | O => st
  | S i =>
      match String.get i path with
      | None => st
      | Some code =>
          let '(st', stop) := ext_step code (Z.of_nat i) st in
          if stop then st' else ext_loop path i st'
      end
  end.

(** [path.extname(p)] (posix). *)
Definition extname (path : string) : string :=
  let st := ext_loop path (String.length path) ext_init in
  if (startDot st =? -1) || (end_ st =? -1) || (preDotState st =? 0)
     || ((preDotState st =? 1) && (startDot st =? end_ st - 1)
         && (startDot st =? startPart st + 1))
  then ""%string
  else substring (Z.to_nat (startDot st))
                 (Z.to_nat (end_ st - startDot st)) path.

End Path.

(* ================================================================== *)
(** ** Arguments of the component *)

(** [string | string[]] *)
Inductive StringOrArray : Type :=
| Single (s : string)
| Multiple (l : list string).

Module FileOptions.
(** [interface FileOptions] *)
Record t : Type := mk {
  files : StringOrArray;
  ignore : option StringOrArray;
  cacheControl : option string;
  contentType : option string
}.
End FileOptions.

(** ["utf-8" | "iso-8859-1" | "windows-1252" | "ascii" | "none"] *)
Inductive TextEncoding : Type :=
| Utf8 | Iso8859_1 | Windows1252 | Ascii7 | NoEncoding.

Definition encodingName (e : TextEncoding) : string :=
  match e with
  | Utf8 => "utf-8"
  | Iso8859_1 => "iso-8859-1"
  | Windows1252 => "windows-1252"
  | Ascii7 => "ascii"
  | NoEncoding => "none"
  end.

Module Assets.
(** [StaticSiteArgs.assets] *)
Record t : Type := mk {
  textEncoding : option TextEncoding;
  fileOptions : option (list FileOptions.t)
}.
End Assets.

(** ["all" | string[]] *)
Inductive InvalidationPaths : Type :=
| AllPaths
| GlobPaths (l : list string).

Module Invalidation.
(** The object form of [StaticSiteArgs.invalidation]; a field is [None]
    when its key is left out. *)
Record config : Type := mk {
  wait : option bool;
  paths : option InvalidationPaths
}.

(** [false | { wait?, paths? }] *)
Inductive t : Type :=
| Disabled
| Config (c : config).
End Invalidation.

Module StaticSiteArgs.
Record t : Type := mk {
  path : option string;
  buildCommand : option string;
  buildOutput : option string;
  assets : option Assets.t;
  invalidation : option Invalidation.t
}.
End StaticSiteArgs.

(* ================================================================== *)
(** ** Resources the component creates *)

Module BucketFile.
(** An element of [BucketFiles.files]. *)
Record t : Type := mk {
  source : string;
  key : string;
  hash : string;
  cacheControl : option string;
  contentType : string
}.
End BucketFile.

Module DistributionInvalidation.
(** The inputs of [new DistributionInvalidation(...)]. *)
Record t : Type := mk {
  paths : list string;
  version : string;
  wait : bool
}.
End DistributionInvalidation.

(* ================================================================== *)
(** ** The environment: glob, fs, path.resolve, child_process *)

Module Glob.
(** The options object handed to [globSync]; a boolean left out of the
    object is [false], glob's default. *)
Record Options : Type := mk {
  cwd : string;
  nodir : bool;
  dot : bool;
  follow : bool;
  ignore : option StringOrArray
}.
End Glob.

Record Env : Type := mkEnv {
  (** [$dev] *)
  dev : bool;
  (** [path.join($cli.paths.platform, "functions", "empty-site")] *)
  emptySitePath : string;
  (** [process.env.SKIP] is set *)
  envSKIP : bool;
  (** [execSync(command, { cwd })]: [true] when it returns, [false] when it
      throws *)
  execSync : string -> string -> bool;
  (** [fs.existsSync] *)
  existsSync : string -> bool;
  (** [path.resolve(...segments)] *)
  resolve : list string -> string;
  (** [globSync(pattern, options)]: the matches, in the order glob
      returns them *)
  globSync : StringOrArray -> Glob.Options -> list string;
  (** [fs.promises.readFile] and [fs.readFileSync] on one snapshot of the
      file system: [None] when the read throws *)
  readFile : string -> option (list byte)
}.

(* ================================================================== *)
(** ** Exceptions *)

Inductive error : Type :=
| VisibleError (message : string)
| ReadError (file : string).

Inductive result (A : Type) : Type :=
| Ok (a : A)
| Throw (e : error).

Arguments Ok {A} a.
Arguments Throw {A} e.

Definition bind {A B : Type} (m : result A) (k : A -> result B) : result B :=
  match m with
  | Ok a => k a
  | Throw e => Throw e
  end.

Notation "x <- m ;; k" := (bind m (fun x => k))
  (at level 61, m at next level, right associativity).

(** [Promise.all(xs.map(f))] and [xs.forEach(f)] for an [f] that may throw:
    the results in order, or the exception. *)
Fixpoint mapM {A B : Type} (f : A -> result B) (xs : list A)
  : result (list B) :=
  match xs with
  | [] => Ok []
  | x :: xs' =>
      y <- f x ;;
      ys <- mapM f xs' ;;
      Ok (y :: ys)
  end.

(* ================================================================== *)
(** ** The component *)

(** JavaScript truthiness of an optional string. *)
Definition truthy (s : option string) : bool :=
  match s with
  | Some s' => negb (String.eqb s' "")
  | None => false
  end.

Definition quoted (s : string) : string := Js.dquote ^^ s ^^ Js.dquote.

(** *** [normalizeSitePath] *)
Definition normalizeSitePath (env : Env) (args : StaticSiteArgs.t)
  : result string :=
  match StaticSiteArgs.path args with
  | Some sitePath =>
      if negb (truthy (Some sitePath)) then Ok "."
      else if negb (existsSync env sitePath)
      then Throw (VisibleError
                    ("No site found at " ^^ quoted (resolve env [sitePath])))
      else Ok sitePath
  | None => Ok "."
  end.

(** *** [buildApp] *)
Definition buildApp (env : Env) (name : string) (sitePath : string)
           (args : StaticSiteArgs.t) : result string :=
  if dev env then Ok (emptySitePath env)
  else
    (* Run build *)
    _ <- (match StaticSiteArgs.buildCommand args with
          | Some buildCommand =>
              if truthy (Some buildCommand) && negb (envSKIP env)
              then if execSync env buildCommand sitePath
                   then Ok tt
                   else Throw (VisibleError
                                 ("There was a problem building the "
                                    ^^ quoted name ^^ " site."))
              else Ok tt
          | None => Ok tt
          end) ;;
    (* Validate build output *)
    let outputPath :=
      match StaticSiteArgs.buildOutput args with
      | Some buildOutput => buildOutput
      | None => sitePath
      end in
    if negb (existsSync env outputPath)
    then Throw (VisibleError
                  ("No build output found at "
                     ^^ quoted (resolve env [outputPath])))
    else Ok outputPath.

(** *** [getContentType] *)

Record ExtensionData : Type := mkExtData {
  mime : string;
  isText : bool
}.

Definition extensions : list (string * ExtensionData) :=
  [ (".txt", mkExtData "text/plain" true);
    (".htm", mkExtData "text/html" true);
    (".html", mkExtData "text/html" true);
    (".xhtml", mkExtData "application/xhtml+xml" true);
    (".css", mkExtData "text/css" true);
    (".js", mkExtData "text/javascript" true);
    (".mjs", mkExtData "text/javascript" true);
    (".apng", mkExtData "image/apng" false);
    (".avif", mkExtData "image/avif" false);
    (".gif", mkExtData "image/gif" false);
    (".jpeg", mkExtData "image/jpeg" false);
    (".jpg", mkExtData "image/jpeg" false);
    (".png", mkExtData "image/png" false);
    (".svg", mkExtData "image/svg+xml" true);
    (".bmp", mkExtData "image/bmp" false);
    (".tiff", mkExtData "image/tiff" false);
    (".webp", mkExtData "image/webp" false);
    (".ico", mkExtData "image/vnd.microsoft.icon" false);
    (".eot", mkExtData "application/vnd.ms-fontobject" false);
    (".ttf", mkExtData "font/ttf" false);
    (".otf", mkExtData "font/otf" false);
    (".woff", mkExtData "font/woff" false);
    (".woff2", mkExtData "font/woff2" false);
    (".json", mkExtData "application/json" true);
    (".jsonld", mkExtData "application/ld+json" true);
    (".xml", mkExtData "application/xml" true);
    (".pdf", mkExtData "application/pdf" false);
    (".zip", mkExtData "application/zip" false);
    (".wasm", mkExtData "application/wasm" false) ].

(** [obj[key]] on an object literal with the given own properties. *)
Fixpoint lookup {V : Type} (obj : list (string * V)) (key : string)
  : option V :=
  match obj with
  | [] => None
  | (k, v) :: rest => if String.eqb k key then Some v else lookup rest key
  end.

(** The extension [getContentType] looks up. *)
Definition contentTypeExt (filename : string) : string :=
  if Js.endsWith filename ".well-known/site-association-json"
  then ".json"
  else Path.extname filename.

Definition getContentType (filename : string) (textEncoding : string)
  : string :=
  let ext := contentTypeExt filename in
  let extensionData := lookup extensions ext in
  let mime :=
    match extensionData with
    | Some d => mime d
    | None => "application/octet-stream"
    end in
  let charset :=
    if match extensionData with Some d => isText d | None => false end
       && negb (String.eqb textEncoding "none")
    then ";charset=" ^^ textEncoding
    else "" in
  mime ^^ charset.

(** *** [uploadAssets] *)

Definition catchAll : FileOptions.t :=
  FileOptions.mk (Single "**") None
    (Some "max-age=0,no-cache,no-store,must-revalidate") None.

Definition jsCssRule : FileOptions.t :=
  FileOptions.mk (Multiple ["**/*.js"; "**/*.css"]) None
    (Some "max-age=31536000,public,immutable") None.

(** [assets?.fileOptions ?? []] *)
Definition userFileOptions (assets : option Assets.t) : list FileOptions.t :=
  match assets with
  | Some a =>
      match Assets.fileOptions a with
      | Some l => l
      | None => []
      end
  | None => []
  end.

(** [const fileOptions = [ {...}, {...}, ...(assets?.fileOptions ?? []) ]] *)
Definition buildFileOptions (assets : option Assets.t)
  : list FileOptions.t :=
  [catchAll; jsCssRule] ++ userFileOptions assets.

(** The options of the [globSync] call of the upload loop. *)
Definition uploadGlobOptions (env : Env) (outputPath : string)
           (fileOption : FileOptions.t) : Glob.Options :=
  Glob.mk (resolve env [outputPath]) true true false
          (FileOptions.ignore fileOption).

(** [globSync(fileOption.files, {...})] of the upload loop. *)
Definition matchedFiles (env : Env) (outputPath : string)
           (fileOption : FileOptions.t) : list string :=
  globSync env (FileOptions.files fileOption)
           (uploadGlobOptions env outputPath fileOption).

(** The body of [files.map(async (file) => ...)]. *)
Definition bucketFile (env : Env) (outputPath : string)
           (fileOption : FileOptions.t) (file : string)
  : result BucketFile.t :=
  let source := resolve env [outputPath; file] in
  match readFile env source with
  | None => Throw (ReadError source)
  | Some content =>
      let hash := Crypto.sha256 content in
      Ok (BucketFile.mk source file hash
                        (FileOptions.cacheControl fileOption)
                        (getContentType file "UTF-8"))
  end.

(** [for (const fileOption of ...) { ... }], threading the two arrays
    [bucketFiles] and [filesUploaded] the loop body pushes to. *)
Fixpoint uploadLoop (env : Env) (outputPath : string)
         (fileOptions : list FileOptions.t)
         (bucketFiles : list BucketFile.t) (filesUploaded : list string)
  : result (list BucketFile.t) :=
  match fileOptions with
  | [] => Ok bucketFiles
  | fileOption :: rest =>
      let files :=
        filter (fun file => negb (Js.includes filesUploaded file))
               (matchedFiles env outputPath fileOption) in
      uploaded <- mapM (bucketFile env outputPath fileOption) files ;;
      uploadLoop env outputPath rest
                 (bucketFiles ++ uploaded) (filesUploaded ++ files)
  end.

(** The [files] input of the [BucketFiles] resource. *)
Definition uploadAssets (env : Env) (outputPath : string)
           (assets : option Assets.t) : result (list BucketFile.t) :=
  uploadLoop env outputPath (rev (buildFileOptions assets)) [] [].

(** *** [createDistributionInvalidation] *)

(** The options of the [globSync] call of the version hash. *)
Definition invalidationGlobOptions (env : Env) (outputPath : string)
  : Glob.Options :=
  Glob.mk (resolve env [outputPath]) true true true None.

(** A [crypto] hash object: the bytes fed to it by [update] so far. *)
Definition Hash : Type := list byte.

Definition hash_update (h : Hash) (chunk : list byte) : Hash := h ++ chunk.

(** [globSync("**", {...}).forEach((filePath) => hash.update(...))] *)
Fixpoint hashFiles (env : Env) (outputPath : string)
         (filePaths : list string) (h : Hash) : result Hash :=
  match filePaths with
  | [] => Ok h
  | filePath :: rest =>
      match readFile env (resolve env [outputPath; filePath]) with
      | None => Throw (ReadError (resolve env [outputPath; filePath]))
      | Some content => hashFiles env outputPath rest (hash_update h content)
      end
  end.

(** [{ wait: false, paths: "all", ...invalidationRaw }] *)
Definition normalizeInvalidation (invalidationRaw : option Invalidation.config)
  : bool * InvalidationPaths :=
  match invalidationRaw with
  | None => (false, AllPaths)
  | Some c =>
      (match Invalidation.wait c with Some w => w | None => false end,
       match Invalidation.paths c with Some p => p | None => AllPaths end)
  end.

(** [invalidation.paths === "all" ? ["/*"] : invalidation.paths] *)
Definition invalidationPaths (paths : InvalidationPaths) : list string :=
  match paths with
  | AllPaths => ["/*"]
  | GlobPaths l => l
  end.

(** The file paths whose contents are hashed, in hashing order. *)
Definition versionFiles (env : Env) (outputPath : string) : list string :=
  globSync env (Single "**") (invalidationGlobOptions env outputPath).

(** [None] is the plain [return]: no [DistributionInvalidation] is
    created. *)
Definition createDistributionInvalidation (env : Env) (outputPath : string)
           (invalidationRaw : option Invalidation.t)
  : result (option DistributionInvalidation.t) :=
  let proceed (raw : option Invalidation.config) :=
    let '(wait, paths) := normalizeInvalidation raw in
    let invalidationPaths := invalidationPaths paths in
    if (List.length invalidationPaths =? 0)%nat then Ok None
    else
      h <- hashFiles env outputPath (versionFiles env outputPath) [] ;;
      Ok (Some (DistributionInvalidation.mk
                  invalidationPaths (Crypto.md5 h) wait)) in
  match invalidationRaw with
  | Some Invalidation.Disabled => Ok None
  | Some (Invalidation.Config c) => proceed (Some c)
  | None => proceed None
  end.

(** *** The constructor's wiring

    [outputPath = buildApp()] feeds both [uploadAssets] and
    [createDistributionInvalidation]; an exception in a step stops the
    steps that consume its output. *)

Definition outputPathOf (env : Env) (name : string) (args : StaticSiteArgs.t)
  : result string :=
  sitePath <- normalizeSitePath env args ;;
  buildApp env name sitePath args.

Definition assetFiles (env : Env) (name : string) (args : StaticSiteArgs.t)
  : result (list BucketFile.t) :=
  outputPath <- outputPathOf env name args ;;
  uploadAssets env outputPath (StaticSiteArgs.assets args).

Definition invalidationOf (env : Env) (name : string) (args : StaticSiteArgs.t)
  : result (option DistributionInvalidation.t) :=
  outputPath <- outputPathOf env name args ;;
  createDistributionInvalidation env outputPath
    (StaticSiteArgs.invalidation args).

(* ================================================================== *)
(** ** [normalizeEnvironment] and [generateViteTypes] *)

Module Vite.
(** [StaticSiteArgs.vite] *)
Record t : Type := mk {
  types : option string
}.
End Vite.

(** [path.join] and [path.dirname], which [generateViteTypes] needs
    besides the environment. *)
Record PathLib : Type := mkPathLib {
  pathJoin : list string -> string;
  pathDirname : string -> string
}.

(** What [generateViteTypes] asks of the file system, in order. *)
Inductive FsWrite : Type :=
| MkdirRecursive (dir : string)
| WriteFile (file : string) (content : string).

(** An object of environment variables: its own properties, in the order
    of [Object.keys]. *)
Definition Environment : Type := list (string * string).

(** [environment ?? {}] *)
Definition normalizeEnvironment (environment : option Environment)
  : Environment :=
  match environment with
  | Some e => e
  | None => []
  end.

Definition newline : string := String (ascii_of_nat 10) "".

(** The declaration line of one environment variable. *)
Definition readonlyLine (key : string) : string :=
  "  readonly " ^^ key ^^ ": string".

(** The template literal [content]. *)
Definition viteTypesContent (environment : Environment) : string :=
  "/// <reference types=" ^^ quoted "vite/client" ^^ " />" ^^ newline
  ^^ "  interface ImportMetaEnv {" ^^ newline
  ^^ "  " ^^ String.concat newline (map readonlyLine (map fst environment))
  ^^ newline
  ^^ "  }" ^^ newline
  ^^ "  interface ImportMeta {" ^^ newline
  ^^ "    readonly env: ImportMetaEnv" ^^ newline
  ^^ "  }".

Definition generateViteTypes (env : Env) (lib : PathLib) (sitePath : string)
           (vite : option Vite.t) (environment : Environment)
  : list FsWrite :=
  (* Build the path *)
  let typesPath0 :=
    match vite with
    | Some v => Vite.types v
    | None => None
    end in
  let typesPath :=
    if negb (truthy typesPath0)
    then if existsSync env (pathJoin lib [sitePath; "vite.config.js"])
            || existsSync env (pathJoin lib [sitePath; "vite.config.ts"])
         then Some "src/sst-env.d.ts"
         else typesPath0
    else typesPath0 in
  if negb (truthy typesPath) then []
  else
    match typesPath with
    | None => []
    | Some typesPath =>
        (* Create type file *)
        let filePath := resolve env [pathJoin lib [sitePath; typesPath]] in
        let content := viteTypesContent environment in
        let fileDir := pathDirname lib filePath in
        [MkdirRecursive fileDir; WriteFile filePath content]
    end.

(* ================================================================== *)
(** ** Specification vocabulary *)

(** [fileOption] matches [file]: [globSync] of its patterns, with its
    [ignore] patterns, returns [file]. *)
Definition matches (env : Env) (outputPath : string)
           (fileOption : FileOptions.t) (file : string) : bool :=
  Js.includes (matchedFiles env outputPath fileOption) file.

(** [o] is the rule declared last in [rulebook] among those matching
    [file]. *)
Definition lastMatching (env : Env) (outputPath : string)
           (rulebook : list FileOptions.t) (file : string)
           (o : FileOptions.t) : Prop :=
  exists earlier later,
    rulebook = earlier ++ o :: later
    /\ matches env outputPath o file = true
    /\ forall o', In o' later -> matches env outputPath o' file = false.

(** What the glob call of the catch-all rule returns.  This is the
    component's own enumeration, not a description of the directory: what
    a directory holds is related to glob by [starReturns] below. *)
Definition treeFiles (env : Env) (outputPath : string) : list string :=
  matchedFiles env outputPath catchAll.

(** The contents of the files glob enumerates for the version hash, in
    enumeration order ([None] for a file that cannot be read). *)
Definition versionContents (env : Env) (outputPath : string)
  : list (option (list byte)) :=
  map (fun filePath => readFile env (resolve env [outputPath; filePath]))
      (versionFiles env outputPath).

(** The invalidation argument is [false], or its paths are an empty array. *)
Definition disabledOrEmpty (invalidationRaw : option Invalidation.t) : Prop :=
  invalidationRaw = Some Invalidation.Disabled
  \/ exists c, invalidationRaw = Some (Invalidation.Config c)
               /\ Invalidation.paths c = Some (GlobPaths []).

(** The paths of the invalidation argument are ["all"] or left out. *)
Definition pathsAllOrOmitted (invalidationRaw : option Invalidation.t)
  : Prop :=
  match invalidationRaw with
  | None => True
  | Some Invalidation.Disabled => False
  | Some (Invalidation.Config c) =>
      Invalidation.paths c = None \/ Invalidation.paths c = Some AllPaths
  end.

(** The [wait] key of the invalidation argument is left out. *)
Definition waitOmitted (invalidationRaw : option Invalidation.t) : Prop :=
  match invalidationRaw with
  | None => True
  | Some Invalidation.Disabled => False
  | Some (Invalidation.Config c) => Invalidation.wait c = None
  end.

(** The first rule of [fileOptions], in the order the loop visits them,
    that matches [file]. *)
Definition firstMatching (env : Env) (outputPath : string)
           (fileOptions : list FileOptions.t) (file : string)
  : option FileOptions.t :=
  find (fun o => matches env outputPath o file) fileOptions.

(** The array [filesUploaded] when the loop over [fileOptions] ends. *)
Fixpoint uploadedKeys (env : Env) (outputPath : string)
         (fileOptions : list FileOptions.t) (filesUploaded : list string)
  : list string :=
  match fileOptions with
  | [] => filesUploaded
  | fileOption :: rest =>
      uploadedKeys env outputPath rest
        (filesUploaded
           ++ filter (fun file => negb (Js.includes filesUploaded file))
                     (matchedFiles env outputPath fileOption))
  end.

(** The records of [plan] whose key is [file]. *)
Definition recordsOf (plan : list BucketFile.t) (file : string)
  : list BucketFile.t :=
  filter (fun r => String.eqb (BucketFile.key r) file) plan.

(** The part of glob's contract the component relies on, for the pattern
    ["**"] alone: a call in directory [cwd] with [nodir] and [dot] set, no
    [ignore] and [follow] as given returns every path of [paths].  With
    [dot] the walk enters hidden directories and returns hidden files;
    [follow] decides whether it enters symlinked directories. *)
Definition starReturns (env : Env) (cwd : string) (follow : bool)
           (paths : list string) : Prop :=
  forall options,
    Glob.cwd options = cwd ->
    Glob.nodir options = true ->
    Glob.dot options = true ->
    Glob.follow options = follow ->
    Glob.ignore options = None ->
    forall p, In p paths -> In p (globSync env (Single "**") options).

(** The glob calls of [rulebook] name every file by one path: two of
    their results that [path.resolve] sends to the same file are equal. *)
Definition namedOnce (env : Env) (outputPath : string)
           (rulebook : list FileOptions.t) : Prop :=
  forall o1 o2 k1 k2,
    In o1 rulebook -> In o2 rulebook ->
    In k1 (matchedFiles env outputPath o1) ->
    In k2 (matchedFiles env outputPath o2) ->
    resolve env [outputPath; k1] = resolve env [outputPath; k2] ->
    k1 = k2.

(** The records of [plan] read from the file [source]. *)
Definition recordsFrom (plan : list BucketFile.t) (source : string)
  : list BucketFile.t :=
  filter (fun r => String.eqb (BucketFile.source r) source) plan.

(** The object form of the invalidation argument, if it has one. *)
Definition invalidationConfig (invalidationRaw : option Invalidation.t)
  : option Invalidation.config :=
  match invalidationRaw with
  | Some (Invalidation.Config c) => Some c
  | _ => None
  end.

(** The hash object after being fed the given file contents in order;
    [None] when one of them is missing. *)
Fixpoint hashContents (contents : list (option (list byte))) (h : Hash)
  : option Hash :=
  match contents with
  | [] => Some h
  | None :: _ => None
  | Some content :: rest => hashContents rest (hash_update h content)
  end.

(** The directory [buildApp] validates. *)
Definition outputRoot (args : StaticSiteArgs.t) (sitePath : string)
  : string :=
  match StaticSiteArgs.buildOutput args with
  | Some buildOutput => buildOutput
  | None => sitePath
  end.

(** The scan of [extname] has marked no dot, or a position of the path
    that holds a dot and lies before the end of the extension. *)
Definition dot_marked (path : string) (st : Path.ExtState) : Prop :=
  Path.startDot st = (-1)%Z
  \/ (0 <= Path.startDot st < Path.end_ st)%Z
     /\ String.get (Z.to_nat (Path.startDot st)) path = Some Path.CHAR_DOT.

(* ================================================================== *)
(** ** A small environment for the examples

    A directory listing with a glob walker for the three pattern shapes
    the examples use: ["**"], ["**/*<suffix>"] and a path without
    wildcards. *)

Module Example.

Record File : Type := mkFile {
  name : string;
  (** [None]: reading the file throws *)
  content : option string;
  (** the file is reached only through a symlinked directory *)
  behindSymlinkedDir : bool
}.

Definition patternsOf (p : StringOrArray) : list string :=
  match p with
  | Single s => [s]
  | Multiple l => l
  end.

Definition startsWith (s prefix : string) : bool :=
  String.eqb (substring 0 (String.length prefix) s) prefix.

(** A ["**"] walk sees a file behind a symlinked directory only with
    [follow]; a pattern without wildcards names its file directly.  The
    listing holds files only: the symlink of such a directory is an entry
    of [Walker] below. *)
Definition matchPattern (follow : bool) (pattern : string) (f : File)
  : bool :=
  if String.eqb pattern "**"
  then follow || negb (behindSymlinkedDir f)
  else if startsWith pattern "**/*"
  then (follow || negb (behindSymlinkedDir f))
       && Js.endsWith (name f)
            (substring 4 (String.length pattern - 4) pattern)
  else String.eqb pattern (name f).

Definition glob (listing : list File) (pattern : StringOrArray)
           (options : Glob.Options) : list string :=
  let hit (ps : list string) (f : File) :=
    existsb (fun p => matchPattern (Glob.follow options) p f) ps in
  let ignored (f : File) :=
    match Glob.ignore options with
    | Some ps => hit (patternsOf ps) f
    | None => false
    end in
  map name
      (filter (fun f => hit (patternsOf pattern) f && negb (ignored f))
              listing).

Fixpoint read (listing : list File) (root : string) (source : string)
  : option (list byte) :=
  match listing with
  | [] => None
  | f :: rest =>
      if String.eqb source (root ^^ "/" ^^ name f)
      then option_map list_byte_of_string (content f)
      else read rest root source
  end.

(** [path.resolve] with [/site] as the working directory: an absolute
    segment starts over. *)
Definition join (segments : list string) : string :=
  fold_left (fun acc s => if startsWith s "/" then s else acc ^^ "/" ^^ s)
            segments "/site".

(** The site lives in [/site], its output directory is [dist]. *)
Definition env (devMode : bool) (listing : list File) : Env :=
  mkEnv devMode "/platform/functions/empty-site" false
        (fun _ _ => true)
        (fun p => String.eqb p "dist" || String.eqb p ".")
        join
        (fun pattern options =>
           if String.eqb (Glob.cwd options) "/site/dist"
           then glob listing pattern options
           else [])
        (read listing "/site/dist").

Definition site : list File :=
  [ mkFile "index.html" (Some "<html></html>") false;
    mkFile "app.js" (Some "console.log(1)") false;
    mkFile "logo.png" (Some "PNG") false;
    mkFile ".well-known/site-association-json" (Some "{}") false;
    mkFile "app.webmanifest" (Some "{}") false ].

Definition args (assets : option Assets.t)
           (invalidation : option Invalidation.t) : StaticSiteArgs.t :=
  StaticSiteArgs.mk None None (Some "dist") assets invalidation.

(** The listings and arguments of the examples. *)

Definition env0 : Env := env false site.

Definition manifestRule : FileOptions.t :=
  FileOptions.mk (Single "**/*.webmanifest") None (Some "max-age=3600")
                 (Some "application/manifest+json").

Definition manifestAssets : option Assets.t :=
  Some (Assets.mk None (Some [manifestRule])).

Definition noCharsetAssets : option Assets.t :=
  Some (Assets.mk (Some NoEncoding) None).

Definition htmlBare : FileOptions.t :=
  FileOptions.mk (Single "**/*.html") None None None.

Definition htmlShort : FileOptions.t :=
  FileOptions.mk (Single "**/*.html") None (Some "max-age=60") None.

Definition twoHtmlRules : option Assets.t :=
  Some (Assets.mk None (Some [htmlBare; htmlShort])).

Definition oneHtmlRule : option Assets.t :=
  Some (Assets.mk None (Some [htmlBare])).

Definition listingAB : list File :=
  [ mkFile "a.txt" (Some "A") false; mkFile "b.txt" (Some "B") false ].

Definition listingBA : list File :=
  [ mkFile "b.txt" (Some "B") false; mkFile "a.txt" (Some "A") false ].

Definition listingXY : list File :=
  [ mkFile "x.bin" (Some "A") false; mkFile "y.bin" (Some "B") false ].

Definition locked : list File :=
  [ mkFile "index.html" (Some "<html></html>") false;
    mkFile "locked.bin" None false ].

End Example.

(** ** Links and absolute patterns

    The walker of [Example] with two more behaviours of glob.  A symlink
    to a directory is an entry of its own: [nodir] drops it only from a
    walk that follows links (to [lstat] a link is no directory), so a walk
    that does not follow returns the link, and reading it as a file throws
    [EISDIR].  A pattern that is an absolute path returns the absolute
    path of its file. *)

Module Walker.

Definition root : string := "/site/dist".

Definition linkHit (options : Glob.Options) (link : string)
           (pattern : string) : bool :=
  (String.eqb pattern "**" || String.eqb pattern link)
  && negb (Glob.nodir options && Glob.follow options).

Definition absoluteHit (listing : list Example.File) (pattern : string)
  : bool :=
  existsb (fun f => String.eqb pattern (root ^^ "/" ^^ Example.name f))
          listing.

Definition glob (listing : list Example.File) (links : list string)
           (pattern : StringOrArray) (options : Glob.Options)
  : list string :=
  Example.glob listing pattern options
  ++ filter (fun link =>
               existsb (linkHit options link) (Example.patternsOf pattern))
            links
  ++ filter (absoluteHit listing) (Example.patternsOf pattern).

(** The directory [/site/dist] with the files of [listing] and the
    symlinked directories [links]; no file is read at the path of a
    link. *)
Definition env (listing : list Example.File) (links : list string) : Env :=
  mkEnv false "/platform/functions/empty-site" false
        (fun _ _ => true)
        (fun p => String.eqb p "dist" || String.eqb p ".")
        Example.join
        (fun pattern options =>
           if String.eqb (Glob.cwd options) root
           then glob listing links pattern options
           else [])
        (Example.read listing root).



(** A user rule whose pattern is the absolute path of [index.html]. *)
Definition absoluteRule : FileOptions.t :=
  FileOptions.mk (Single "/site/dist/index.html") None (Some "max-age=60")
                 None.

Definition absoluteAssets : option Assets.t :=
  Some (Assets.mk None (Some [absoluteRule])).

Definition plainEnv : Env := env Example.site [].

End Walker.

(** The build command [buildApp] runs outside dev mode, if any: the
    command must be a non-empty string and [process.env.SKIP] unset. *)
Definition buildToRun (env : Env) (args : StaticSiteArgs.t) : option string :=
  match StaticSiteArgs.buildCommand args with
  | Some buildCommand =>
      if truthy (Some buildCommand) && negb (envSKIP env)
      then Some buildCommand
      else None
  | None => None
  end.

(** A string without dot and without slash. *)
Fixpoint plain (s : string) : bool :=
  match s with
  | EmptyString => true
  | String a s' =>
      negb (Ascii.eqb a Path.CHAR_DOT)
      && negb (Ascii.eqb a Path.CHAR_FORWARD_SLASH)
      && plain s'
  end.

(** The marker of the special case of [getContentType]. *)
Definition siteAssociation : string := ".well-known/site-association-json".

(** The charset suffix [getContentType] appends for a table entry. *)
Definition charsetOf (d : ExtensionData) (textEncoding : string) : string :=
  if isText d && negb (String.eqb textEncoding "none")
  then ";charset=" ^^ textEncoding
  else "".

(** The scan of [extname] over a path of length [N] whose character at
    index [L] is neither dot nor slash, followed by a dot and then only by
    characters that are neither: what holds when the indices from [n] on
    have been visited, and what holds in the end. *)
Definition ext_scan_done (L N : nat) (st : Path.ExtState) : Prop :=
  Path.startDot st = Z.of_nat (L + 1)
  /\ Path.end_ st = Z.of_nat N
  /\ Path.preDotState st <> 0%Z.

Definition ext_scan_inv (L N n : nat) (st : Path.ExtState) : Prop :=
  (L + 2 <= n ->
   Path.startDot st = (-1)%Z /\ Path.preDotState st = 0%Z
   /\ (n = N -> Path.end_ st = (-1)%Z)
   /\ (n < N -> Path.end_ st = Z.of_nat N))
  /\ (n = L + 1 ->
      Path.startDot st = Z.of_nat (L + 1) /\ Path.preDotState st = 0%Z
      /\ Path.end_ st = Z.of_nat N)
  /\ (n <= L -> ext_scan_done L N st).

(** The environment [env] with another glob walker. *)
Definition withGlob (env : Env)
           (walker : StringOrArray -> Glob.Options -> list string) : Env :=
  mkEnv (dev env) (emptySitePath env) (envSKIP env) (execSync env)
        (existsSync env) (resolve env) walker (readFile env).

(** The explicit [vite.types], when it is a non-empty string. *)
Definition viteTypesGiven (vite : option Vite.t) : option string :=
  match vite with
  | Some v =>
      match Vite.types v with
      | Some typesPath =>
          if String.eqb typesPath "" then None else Some typesPath
      | None => None
      end
  | None => None
  end.

(** A vite config file exists in the site directory. *)
Definition viteConfigured (env : Env) (lib : PathLib) (sitePath : string)
  : bool :=
  existsSync env (pathJoin lib [sitePath; "vite.config.js"])
  || existsSync env (pathJoin lib [sitePath; "vite.config.ts"]).

(** Creating the directory of the type file, then writing the file. *)
Definition viteTypesWrites (env : Env) (lib : PathLib)
           (sitePath typesPath : string) (environment : Environment)
  : list FsWrite :=
  [ MkdirRecursive
      (pathDirname lib (resolve env [pathJoin lib [sitePath; typesPath]]));
    WriteFile (resolve env [pathJoin lib [sitePath; typesPath]])
              (viteTypesContent environment) ].

(** The scan of [extname] over a path of length [N] whose last component
    starts at index [P] with a dot and has no other dot: what holds when
    the indices from [n] on have been visited. *)
Definition dotfile_scan_inv (P N n : nat) (st : Path.ExtState) : Prop :=
  (P + 1 <= n ->
   Path.startDot st = (-1)%Z /\ Path.preDotState st = 0%Z
   /\ (n = N -> Path.end_ st = (-1)%Z)
   /\ (n < N -> Path.end_ st = Z.of_nat N
                /\ Path.matchedSlash st = false))
  /\ (n = P ->
      Path.preDotState st = 0%Z /\ Path.end_ st <> (-1)%Z
      /\ Path.matchedSlash st = false).

(* ================================================================== *)
(** ** More sample listings *)

Module Sample.

(** The same bytes, cut into files at different places. *)
Definition cutOnce : list Example.File :=
  [ Example.mkFile "one.txt" (Some "ab") false;
    Example.mkFile "two.txt" (Some "c") false ].

Definition cutTwice : list Example.File :=
  [ Example.mkFile "one.txt" (Some "a") false;
    Example.mkFile "empty.txt" (Some "") false;
    Example.mkFile "two.txt" (Some "bc") false ].

Definition onlyShortRule : option Assets.t :=
  Some (Assets.mk None (Some [Example.htmlShort])).

Definition explicitPaths : option Invalidation.t :=
  Some (Invalidation.Config
          (Invalidation.mk (Some true)
                           (Some (GlobPaths ["/index.html"; "/products/*"])))).

(** An environment whose build command fails although every directory
    exists. *)
Definition brokenBuild : Env :=
  mkEnv false "/platform/functions/empty-site" false
        (fun _ _ => false) (fun _ => true) Example.join
        (fun _ _ => []) (fun _ => None).

Definition buildArgs : StaticSiteArgs.t :=
  StaticSiteArgs.mk None (Some "npm run build") (Some "dist") None None.

(** [path.join] on plain segments, and [path.dirname] of a path with a
    directory part. *)
Fixpoint dropLastSegment (reversed : list ascii) : list ascii :=
  match reversed with
  | [] => []
  | a :: rest =>
      if Ascii.eqb a Path.CHAR_FORWARD_SLASH then rest
      else dropLastSegment rest
  end.

Definition paths : PathLib :=
  mkPathLib
    (fun segments => String.concat "/" segments)
    (fun file =>
       string_of_list_ascii
         (rev (dropLastSegment (rev (list_ascii_of_string file))))).

Definition variables : Environment :=
  [("API_URL", "https://api.example.com"); ("TOKEN", "s3cr3t")].

End Sample.

(* ================================================================== *)
(** * Properties *)

(** ** The digests agree with the published test vectors *)

Example md5_empty :
  Crypto.md5 [] = "d41d8cd98f00b204e9800998ecf8427e".
Proof. vm_compute. reflexivity. Qed.

Example md5_abc :
  Crypto.md5 (list_byte_of_string "abc") = "900150983cd24fb0d6963f7d28e17f72".
Proof. vm_compute. reflexivity. Qed.

Example md5_two_blocks :
  Crypto.md5 (list_byte_of_string
    "12345678901234567890123456789012345678901234567890123456789012345678901234567890")
  = "57edf4a22be3c955ac49da2e2107b67a".
Proof. vm_compute. reflexivity. Qed.

Example sha256_constants :
  List.length Crypto.sha256_K = 64%nat
  /\ Crypto.nthZ Crypto.sha256_K 0 = 0x428a2f98%Z
  /\ Crypto.nthZ Crypto.sha256_K 63 = 0xc67178f2%Z
  /\ Crypto.nthZ Crypto.sha256_init 0 = 0x6a09e667%Z
  /\ Crypto.nthZ Crypto.sha256_init 7 = 0x5be0cd19%Z.
Proof. repeat split. Qed.

Example sha256_empty :
  Crypto.sha256 []
  = "e3b0c44298fc1c149afbf4c8996fb92427ae41e4649b934ca495991b7852b855".
Proof. vm_compute. reflexivity. Qed.

Example sha256_abc :
  Crypto.sha256 (list_byte_of_string "abc")
  = "ba7816bf8f01cfea414140de5dae2223b00361a396177a9cb410ff61f20015ad".
Proof. vm_compute. reflexivity. Qed.

(** ** [path.extname] on the examples of Node's documentation *)

Example extname_examples :
  map Path.extname
      ["index.html"; "index.coffee.md"; "index."; "index"; ".index";
       ".index.md"; "a.b/"; "a/b.c/d"; ".."]
  = [".html"; ".md"; "."; ""; ""; ".md"; ".b"; ""; ""].
Proof. vm_compute. reflexivity. Qed.

(** An extension is empty or starts with a dot, so no key that
    [getContentType] looks up in its object literal can name a property
    inherited from [Object.prototype]: only own properties are found. *)

Lemma substring_get (s : string) :
  forall n m c,
    String.get n s = Some c ->
    substring n (S m) s = String c (substring (S n) m s).
Proof.
  induction s as [|a s IH]; intros n m c H; destruct n; simpl in *;
    try discriminate.
  - injection H as ->. reflexivity.
  - destruct s as [|a' s']; [destruct n; discriminate|].
    apply (IH n m c H).
Qed.

Lemma ext_loop_dot_marked (path : string) :
  forall n st,
    (Path.end_ st = (-1)%Z \/ (Z.of_nat n < Path.end_ st)%Z) ->
    dot_marked path st ->
    dot_marked path (Path.ext_loop path n st).
Proof.
  induction n as [|i IH]; intros st Hend Hdot; simpl; [assumption|].
  destruct (String.get i path) as [code|] eqn:Hget; [|assumption].
  unfold Path.ext_step.
  destruct st as [sd sp en ms pd]. unfold dot_marked in *. simpl in *.
  destruct (Ascii.eqb code Path.CHAR_FORWARD_SLASH).
  - destruct ms; simpl; [|assumption].
    apply IH; simpl; [lia | assumption].
  - destruct (en =? -1)%Z eqn:Hen; simpl.
    + apply Z.eqb_eq in Hen. subst en.
      destruct (Ascii.eqb code Path.CHAR_DOT) eqn:Hcode; simpl.
      * apply Ascii.eqb_eq in Hcode. subst code.
        destruct (sd =? -1)%Z eqn:Hsd; simpl.
        -- apply IH; simpl; [lia|]. right. rewrite Nat2Z.id. split; [lia|].
           assumption.
        -- destruct (negb (pd =? 1)%Z); simpl; apply IH; simpl; lia.
      * destruct (negb (sd =? -1)%Z); simpl; apply IH; simpl; lia.
    + apply Z.eqb_neq in Hen.
      destruct (Ascii.eqb code Path.CHAR_DOT) eqn:Hcode; simpl.
      * apply Ascii.eqb_eq in Hcode. subst code.
        destruct (sd =? -1)%Z eqn:Hsd; simpl.
        -- apply IH; simpl; [lia|]. right. rewrite Nat2Z.id. split; [lia|].
           assumption.
        -- destruct (negb (pd =? 1)%Z); simpl; apply IH; simpl;
             solve [lia | assumption].
      * destruct (negb (sd =? -1)%Z); simpl; apply IH; simpl;
          solve [lia | assumption].
Qed.

Lemma extname_shape (path : string) :
  Path.extname path = ""
  \/ exists rest, Path.extname path = String Path.CHAR_DOT rest.
Proof.
  unfold Path.extname.
  pose proof (ext_loop_dot_marked path (String.length path) Path.ext_init
                (or_introl eq_refl) (or_introl eq_refl)) as Hdot.
  destruct (Path.ext_loop path (String.length path) Path.ext_init)
    as [sd sp en ms pd].
  unfold dot_marked in Hdot. simpl in *.
  destruct (sd =? -1)%Z eqn:Hsd; simpl; [now left|].
  apply Z.eqb_neq in Hsd.
  destruct ((en =? -1)%Z || (pd =? 0)%Z
            || (pd =? 1)%Z && (sd =? en - 1)%Z && (sd =? sp + 1)%Z);
    [now left|].
  right. destruct Hdot as [Hdot|[Hrange Hget]]; [contradiction|].
  destruct (Z.to_nat (en - sd)) as [|m] eqn:Hlen; [lia|].
  eexists. apply substring_get. exact Hget.
Qed.

Lemma contentTypeExt_shape (filename : string) :
  contentTypeExt filename = ""
  \/ exists rest, contentTypeExt filename = String Path.CHAR_DOT rest.
Proof.
  unfold contentTypeExt.
  destruct (Js.endsWith filename ".well-known/site-association-json").
  - right. now exists "json".
  - apply extname_shape.
Qed.

(** ** Lists, [includes], [mapM] *)

Lemma includes_true (xs : list string) (x : string) :
  Js.includes xs x = true <-> In x xs.
Proof.
  unfold Js.includes. rewrite existsb_exists. split.
  - intros [y [Hy Heq]]. apply String.eqb_eq in Heq. now subst.
  - intros H. exists x. split; [assumption | apply String.eqb_refl].
Qed.

Lemma includes_false (xs : list string) (x : string) :
  Js.includes xs x = false <-> ~ In x xs.
Proof.
  rewrite <- includes_true. destruct (Js.includes xs x); split; congruence.
Qed.

Lemma In_fresh (fu matched : list string) (f : string) :
  In f (filter (fun file => negb (Js.includes fu file)) matched)
  <-> In f matched /\ ~ In f fu.
Proof.
  rewrite filter_In, negb_true_iff, includes_false. tauto.
Qed.

Section MapM.

Context {A B : Type} (f : A -> result B).

Lemma mapM_Ok (xs : list A) (ys : list B) :
  mapM f xs = Ok ys <-> Forall2 (fun x y => f x = Ok y) xs ys.
Proof.
  revert ys. induction xs as [|x xs IH]; intros ys; simpl.
  - split.
    + intros H. injection H as <-. constructor.
    + intros H. inversion H. reflexivity.
  - destruct (f x) as [y|e] eqn:Hx; simpl.
    + destruct (mapM f xs) as [ys'|e] eqn:Hxs; simpl.
      * split.
        -- intros H. injection H as <-. constructor; [assumption|].
           now apply IH.
        -- intros H. inversion H; subst.
           match goal with
           | [ H1 : f x = Ok ?z, H2 : Forall2 _ xs ?l |- _ ] =>
               apply IH in H2; rewrite Hx in H1
           end.
           congruence.
      * split; [discriminate|].
        intros H. inversion H; subst.
        match goal with
        | [ H2 : Forall2 _ xs ?l |- _ ] => apply IH in H2
        end.
        discriminate.
    + split; [discriminate|].
      intros H. inversion H; subst. congruence.
Qed.

Lemma mapM_Throw (xs : list A) :
  (exists e, mapM f xs = Throw e)
  <-> exists x, In x xs /\ exists e, f x = Throw e.
Proof.
  induction xs as [|x xs IH]; simpl.
  - split; [intros [e H]; discriminate | intros [x [[] _]]].
  - destruct (f x) as [y|e] eqn:Hx; simpl.
    + destruct (mapM f xs) as [ys|e] eqn:Hxs; simpl.
      * split; [intros [e H]; discriminate|].
        intros [x' [[->|Hin] [e He]]]; [congruence|].
        destruct (proj2 IH) as [e' He']; [|discriminate].
        exists x'. split; [assumption | now exists e].
      * split; [|intros _; now exists e].
        intros _. destruct (proj1 IH) as [x' [Hin He]]; [now exists e|].
        exists x'. split; [now right | assumption].
    + split; [|intros _; now exists e].
      intros _. exists x. split; [now left | now exists e].
Qed.

Lemma mapM_cases (xs : list A) :
  (exists ys, mapM f xs = Ok ys) \/ (exists e, mapM f xs = Throw e).
Proof. destruct (mapM f xs) as [ys|e]; [left; now exists ys | right; now exists e]. Qed.

End MapM.

Lemma find_app {A : Type} (p : A -> bool) (l1 l2 : list A) :
  find p (l1 ++ l2)
  = match find p l1 with Some x => Some x | None => find p l2 end.
Proof.
  induction l1 as [|a l1 IH]; simpl; [reflexivity|].
  destruct (p a); [reflexivity | exact IH].
Qed.

(** The first hit in the reversed list is the last hit in the list. *)
Lemma find_rev_last {A : Type} (p : A -> bool) (l : list A) (o : A) :
  find p (rev l) = Some o ->
  exists earlier later,
    l = earlier ++ o :: later /\ p o = true
    /\ forall o', In o' later -> p o' = false.
Proof.
  induction l as [|a l IH]; simpl; [discriminate|].
  rewrite find_app. destruct (find p (rev l)) as [x|] eqn:Hfind.
  - intros H. injection H as ->.
    destruct (IH eq_refl) as (earlier & later & -> & Hp & Hlater).
    exists (a :: earlier), later. repeat split; assumption.
  - simpl. destruct (p a) eqn:Hpa; [|discriminate].
    intros H. injection H as ->.
    exists [], l. repeat split; [assumption|].
    intros o' Hin. apply (find_none _ _ Hfind). now apply in_rev in Hin.
Qed.

(** A list has one position that holds a hit and is followed by no hit. *)
Lemma last_hit_unique {A : Type} (p : A -> bool)
      (e1 l1 e2 l2 : list A) (o1 o2 : A) :
  e1 ++ o1 :: l1 = e2 ++ o2 :: l2 ->
  p o1 = true -> (forall o, In o l1 -> p o = false) ->
  p o2 = true -> (forall o, In o l2 -> p o = false) ->
  o1 = o2.
Proof.
  revert e2. induction e1 as [|a e1 IH]; intros e2 Heq H1 Hl1 H2 Hl2.
  - destruct e2 as [|b e2]; simpl in Heq.
    + congruence.
    + injection Heq as -> ->.
      rewrite Hl1 in H2; [discriminate|].
      apply in_or_app. right. now left.
  - destruct e2 as [|b e2]; simpl in Heq.
    + injection Heq as -> <-.
      rewrite Hl2 in H1; [discriminate|].
      apply in_or_app. right. now left.
    + injection Heq as -> Heq. now apply (IH e2).
Qed.

Lemma length_filter_NoDup {A : Type} (key : A -> string) (l : list A)
      (f : string) :
  NoDup (map key l) -> In f (map key l) ->
  List.length (filter (fun r => String.eqb (key r) f) l) = 1%nat.
Proof.
  induction l as [|a l IH]; simpl; [intros _ []|].
  intros Hnd Hin. inversion Hnd as [|? ? Hnotin Hnd']; subst.
  destruct (String.eqb (key a) f) eqn:Heq.
  - apply String.eqb_eq in Heq. subst f. simpl. f_equal.
    apply length_zero_iff_nil.
    destruct (filter _ l) as [|r rest] eqn:Hf; [reflexivity|].
    exfalso. apply Hnotin.
    assert (Hr : In r (filter (fun r => String.eqb (key r) (key a)) l))
      by (rewrite Hf; now left).
    apply filter_In in Hr. destruct Hr as [Hr Hk].
    apply String.eqb_eq in Hk. rewrite <- Hk. now apply in_map.
  - apply IH; [assumption|].
    destruct Hin as [Hin|Hin]; [|assumption].
    apply String.eqb_neq in Heq. contradiction.
Qed.

(** ** [getContentType] *)

Lemma getContentType_known (filename textEncoding : string)
      (d : ExtensionData) :
  lookup extensions (contentTypeExt filename) = Some d ->
  getContentType filename textEncoding
  = if isText d && negb (String.eqb textEncoding "none")
    then mime d ^^ ";charset=" ^^ textEncoding
    else mime d ^^ "".
Proof.
  intros H. unfold getContentType. rewrite H.
  destruct (isText d && negb (String.eqb textEncoding "none")); reflexivity.
Qed.

Lemma append_empty_r (s : string) : s ^^ "" = s.
Proof. induction s as [|c s IH]; simpl; [reflexivity | now rewrite IH]. Qed.

(** The function itself honours its [textEncoding] argument. *)
Lemma getContentType_text (filename textEncoding : string)
      (d : ExtensionData) :
  lookup extensions (contentTypeExt filename) = Some d ->
  isText d = true ->
  getContentType filename textEncoding
  = if String.eqb textEncoding "none" then mime d
    else mime d ^^ ";charset=" ^^ textEncoding.
Proof.
  intros H Ht. rewrite (getContentType_known _ _ _ H), Ht. simpl.
  destruct (String.eqb textEncoding "none"); simpl;
    [apply append_empty_r | reflexivity].
Qed.

(** ** The upload loop *)

Section Upload.

Variable env : Env.
Variable outputPath : string.

Lemma bucketFile_Ok (o : FileOptions.t) (file : string) (r : BucketFile.t) :
  bucketFile env outputPath o file = Ok r
  <-> exists content,
      readFile env (resolve env [outputPath; file]) = Some content
      /\ r = BucketFile.mk (resolve env [outputPath; file]) file
                           (Crypto.sha256 content)
                           (FileOptions.cacheControl o)
                           (getContentType file "UTF-8").
Proof.
  unfold bucketFile.
  destruct (readFile env (resolve env [outputPath; file])) as [content|].
  - split.
    + intros H. injection H as <-. now exists content.
    + intros (c & Hc & ->). now injection Hc as ->.
  - split; [discriminate | intros (c & Hc & _); discriminate].
Qed.

Lemma bucketFile_Throw (o : FileOptions.t) (file : string) :
  (exists e, bucketFile env outputPath o file = Throw e)
  <-> readFile env (resolve env [outputPath; file]) = None.
Proof.
  unfold bucketFile.
  destruct (readFile env (resolve env [outputPath; file])) as [content|].
  - split; [intros [e H]; discriminate | discriminate].
  - split; [reflexivity | intros _; eexists; reflexivity].
Qed.

Lemma bucketFile_key (o : FileOptions.t) (file : string) (r : BucketFile.t) :
  bucketFile env outputPath o file = Ok r -> BucketFile.key r = file.
Proof. intros H. apply bucketFile_Ok in H. now destruct H as (c & _ & ->). Qed.

Lemma mapM_bucketFile_keys (o : FileOptions.t) (files : list string)
      (rs : list BucketFile.t) :
  mapM (bucketFile env outputPath o) files = Ok rs ->
  map BucketFile.key rs = files.
Proof.
  intros H. apply mapM_Ok in H.
  induction H as [|f r files rs Hf _ IH]; simpl; [reflexivity|].
  now rewrite (bucketFile_key _ _ _ Hf), IH.
Qed.

Lemma mapM_bucketFile_In (o : FileOptions.t) (files : list string)
      (rs : list BucketFile.t) (r : BucketFile.t) :
  mapM (bucketFile env outputPath o) files = Ok rs -> In r rs ->
  In (BucketFile.key r) files
  /\ bucketFile env outputPath o (BucketFile.key r) = Ok r.
Proof.
  intros H. apply mapM_Ok in H.
  induction H as [|f r' files rs Hf _ IH]; simpl; [intros []|].
  intros [->|Hin].
  - rewrite (bucketFile_key _ _ _ Hf). split; [now left | assumption].
  - destruct (IH Hin) as [H1 H2]. split; [now right | assumption].
Qed.

Abbreviation fresh fu o :=
  (filter (fun file => negb (Js.includes fu file))
          (matchedFiles env outputPath o)).

(** [bucketFiles] and [filesUploaded] grow in step. *)
Lemma uploadLoop_keys (opts : list FileOptions.t) :
  forall bf fu res,
    uploadLoop env outputPath opts bf fu = Ok res ->
    map BucketFile.key bf = fu ->
    map BucketFile.key res = uploadedKeys env outputPath opts fu.
Proof.
  induction opts as [|o opts IH]; simpl; intros bf fu res H Hk.
  - now injection H as <-.
  - destruct (mapM (bucketFile env outputPath o) (fresh fu o))
      as [rs|e] eqn:Hm; simpl in H; [|discriminate].
    apply (IH _ _ _ H).
    now rewrite map_app, Hk, (mapM_bucketFile_keys _ _ _ Hm).
Qed.

(** Every record pushed by the loop comes from the first rule, in loop
    order, that matches its key. *)
Lemma uploadLoop_sound (opts : list FileOptions.t) :
  forall bf fu res,
    uploadLoop env outputPath opts bf fu = Ok res ->
    exists new,
      res = bf ++ new
      /\ forall r, In r new ->
           ~ In (BucketFile.key r) fu
           /\ exists o,
               firstMatching env outputPath opts (BucketFile.key r) = Some o
               /\ bucketFile env outputPath o (BucketFile.key r) = Ok r.
Proof.
  induction opts as [|o opts IH]; simpl; intros bf fu res H.
  - injection H as <-. exists []. split; [now rewrite app_nil_r | intros r []].
  - destruct (mapM (bucketFile env outputPath o) (fresh fu o))
      as [rs|e] eqn:Hm; simpl in H; [|discriminate].
    destruct (IH _ _ _ H) as (new & -> & Hnew).
    exists (rs ++ new). split; [now rewrite app_assoc|].
    intros r Hin. apply in_app_or in Hin. destruct Hin as [Hin|Hin].
    + destruct (mapM_bucketFile_In _ _ _ _ Hm Hin) as [Hf Hr].
      apply In_fresh in Hf. destruct Hf as [Hmatch Hfu].
      split; [assumption|]. exists o. split; [|assumption].
      unfold firstMatching. simpl. unfold matches at 1.
      now rewrite (proj2 (includes_true _ _) Hmatch).
    + destruct (Hnew r Hin) as (Hfu & o' & Hfirst & Hr).
      assert (Hnot : ~ In (BucketFile.key r) fu)
        by (intros Hc; apply Hfu, in_or_app; now left).
      split; [assumption|]. exists o'. split; [|assumption].
      unfold firstMatching. simpl.
      destruct (matches env outputPath o (BucketFile.key r)) eqn:Hmo;
        [|exact Hfirst].
      exfalso. apply Hfu, in_or_app. right. apply In_fresh.
      split; [now apply includes_true | assumption].
Qed.

Lemma In_uploadedKeys (opts : list FileOptions.t) :
  forall fu f,
    In f (uploadedKeys env outputPath opts fu)
    <-> In f fu
        \/ exists o, In o opts /\ In f (matchedFiles env outputPath o).
Proof.
  induction opts as [|o opts IH]; simpl; intros fu f.
  - split; [now left | intros [H|(o & [] & _)]; assumption].
  - rewrite IH, in_app_iff, In_fresh. split.
    + intros [[H|[H _]]|(o' & Hin & H)].
      * now left.
      * right. exists o. split; [now left | assumption].
      * right. exists o'. split; [now right | assumption].
    + intros [H|(o' & [->|Hin] & H)].
      * left. now left.
      * destruct (in_dec string_dec f fu) as [Hfu|Hfu];
          [left; now left | left; right; now split].
      * right. now exists o'.
Qed.

Lemma NoDup_uploadedKeys (opts : list FileOptions.t) :
  forall fu,
    NoDup fu ->
    (forall o, In o opts -> NoDup (matchedFiles env outputPath o)) ->
    NoDup (uploadedKeys env outputPath opts fu).
Proof.
  induction opts as [|o opts IH]; simpl; intros fu Hfu Hopts;
    [assumption|].
  apply IH; [|intros o' Hin; apply Hopts; now right].
  apply NoDup_app; [assumption | |].
  - apply NoDup_filter, Hopts. now left.
  - intros f Hin Hc. apply In_fresh in Hc. tauto.
Qed.

(** One unreadable file among those a rule matches makes the loop throw. *)
Lemma uploadLoop_Throw (opts : list FileOptions.t) :
  forall bf fu o f,
    In o opts -> In f (matchedFiles env outputPath o) -> ~ In f fu ->
    readFile env (resolve env [outputPath; f]) = None ->
    exists e, uploadLoop env outputPath opts bf fu = Throw e.
Proof.
  induction opts as [|o0 opts IH]; simpl; intros bf fu o f Ho Hf Hfu Hread;
    [contradiction|].
  destruct (mapM (bucketFile env outputPath o0) (fresh fu o0))
    as [rs|e] eqn:Hm; simpl; [|now exists e].
  assert (Hnot : ~ In f (fresh fu o0)).
  { intros Hin.
    assert (Hthrow : exists e,
               mapM (bucketFile env outputPath o0) (fresh fu o0) = Throw e).
    { apply mapM_Throw. exists f. split; [assumption|].
      now apply bucketFile_Throw. }
    destruct Hthrow as [e He]. congruence. }
  destruct Ho as [->|Ho].
  - exfalso. apply Hnot, In_fresh. now split.
  - apply (IH _ _ o f); try assumption.
    intros Hc. apply in_app_or in Hc. tauto.
Qed.

(** When every file the rules match can be read, the loop returns. *)
Lemma uploadLoop_returns (opts : list FileOptions.t) :
  forall bf fu,
    (forall o f, In o opts -> In f (matchedFiles env outputPath o) ->
                 readFile env (resolve env [outputPath; f]) <> None) ->
    exists res, uploadLoop env outputPath opts bf fu = Ok res.
Proof.
  induction opts as [|o opts IH]; simpl; intros bf fu Hread;
    [now exists bf|].
  destruct (mapM_cases (bucketFile env outputPath o) (fresh fu o))
    as [[rs Hm]|Hthrow].
  - rewrite Hm. simpl. apply IH. intros o' f Hin. apply Hread. now right.
  - exfalso. apply mapM_Throw in Hthrow.
    destruct Hthrow as (f & Hin & He). apply bucketFile_Throw in He.
    apply In_fresh in Hin. apply (Hread o f); [now left | tauto | assumption].
Qed.

End Upload.

(** ** [uploadAssets] *)

Section UploadAssets.

Variable env : Env.
Variable outputPath : string.
Variable assets : option Assets.t.
Variable plan : list BucketFile.t.
Hypothesis planned : uploadAssets env outputPath assets = Ok plan.

Lemma uploadAssets_keys :
  map BucketFile.key plan
  = uploadedKeys env outputPath (rev (buildFileOptions assets)) [].
Proof. now apply (uploadLoop_keys _ _ _ _ _ _ planned). Qed.

(** Every file some rule matches has a record. *)
Lemma uploadAssets_covers (o : FileOptions.t) (f : string) :
  In o (buildFileOptions assets) ->
  In f (matchedFiles env outputPath o) ->
  In f (map BucketFile.key plan).
Proof.
  intros Ho Hf. rewrite uploadAssets_keys. apply In_uploadedKeys.
  right. exists o. split; [now apply in_rev in Ho | assumption].
Qed.

(** Every record is about a file some rule matches. *)
Lemma uploadAssets_only_matched (r : BucketFile.t) :
  In r plan ->
  exists o, In o (buildFileOptions assets)
            /\ In (BucketFile.key r) (matchedFiles env outputPath o).
Proof.
  intros Hin.
  assert (Hk : In (BucketFile.key r) (map BucketFile.key plan))
    by now apply in_map.
  rewrite uploadAssets_keys in Hk. apply In_uploadedKeys in Hk.
  destruct Hk as [[]|(o & Ho & Hf)].
  exists o. split; [now apply in_rev | assumption].
Qed.

(** Rule precedence: a record is built from the rule declared last among
    the rules of [[catchAll, jsCssRule, ...userRules]] that match its key. *)
Lemma uploadAssets_precedence (r : BucketFile.t) :
  In r plan ->
  exists o,
    lastMatching env outputPath (buildFileOptions assets) (BucketFile.key r) o
    /\ bucketFile env outputPath o (BucketFile.key r) = Ok r.
Proof.
  intros Hin.
  destruct (uploadLoop_sound _ _ _ _ _ _ planned) as (new & Hplan & Hnew).
  simpl in Hplan. subst plan.
  destruct (Hnew r Hin) as (_ & o & Hfirst & Hr).
  exists o. split; [|assumption].
  now apply find_rev_last in Hfirst.
Qed.

(** The [Cache-Control] of a record is that of the last matching rule. *)
Lemma uploadAssets_cacheControl (r : BucketFile.t) :
  In r plan ->
  exists o,
    lastMatching env outputPath (buildFileOptions assets) (BucketFile.key r) o
    /\ BucketFile.cacheControl r = FileOptions.cacheControl o.
Proof.
  intros Hin. destruct (uploadAssets_precedence r Hin) as (o & Hlast & Hr).
  exists o. split; [assumption|].
  apply bucketFile_Ok in Hr. now destruct Hr as (c & _ & ->).
Qed.

(** The [Content-Type] of a record depends on its key alone: neither the
    rule's [contentType] nor [assets.textEncoding] reaches it. *)
Lemma uploadAssets_contentType (r : BucketFile.t) :
  In r plan ->
  BucketFile.contentType r = getContentType (BucketFile.key r) "UTF-8".
Proof.
  intros Hin. destruct (uploadAssets_precedence r Hin) as (o & _ & Hr).
  apply bucketFile_Ok in Hr. now destruct Hr as (c & _ & ->).
Qed.

End UploadAssets.

(** [uploadAssets] never reads [assets.textEncoding]. *)
Lemma uploadAssets_textEncoding_unused (env : Env) (outputPath : string)
      (e1 e2 : option TextEncoding) (rules : option (list FileOptions.t)) :
  uploadAssets env outputPath (Some (Assets.mk e1 rules))
  = uploadAssets env outputPath (Some (Assets.mk e2 rules)).
Proof. reflexivity. Qed.

(** ** The version hash *)

Section Version.

Variable env : Env.
Variable outputPath : string.

Abbreviation contentOf filePath :=
  (readFile env (resolve env [outputPath; filePath])).

Lemma hashFiles_hashContents (files : list string) :
  forall h h',
    hashFiles env outputPath files h = Ok h'
    <-> hashContents (map (fun f => contentOf f) files) h = Some h'.
Proof.
  induction files as [|f files IH]; simpl; intros h h'.
  - split; intros H; now injection H as <-.
  - destruct (contentOf f) as [content|]; [apply IH|].
    split; discriminate.
Qed.

Lemma hashFiles_Throw (files : list string) :
  forall h,
    (exists e, hashFiles env outputPath files h = Throw e)
    <-> exists f, In f files /\ contentOf f = None.
Proof.
  induction files as [|f files IH]; simpl; intros h.
  - split; [intros [e H]; discriminate | intros (f & [] & _)].
  - destruct (contentOf f) as [content|] eqn:Hf.
    + rewrite IH. split.
      * intros (f' & Hin & H). exists f'. split; [now right | assumption].
      * intros (f' & [->|Hin] & H); [congruence | now exists f'].
    + split; [|intros _; eexists; reflexivity].
      intros _. exists f. split; [now left | assumption].
Qed.


Lemma hashContents_concat (cs : list (option (list byte))) :
  forall h h',
    hashContents cs h = Some h'
    <-> exists contents, cs = map Some contents /\ h' = h ++ List.concat contents.
Proof.
  induction cs as [|[c|] cs IH]; simpl; intros h h'.
  - split.
    + intros H. injection H as <-. exists []. now rewrite app_nil_r.
    + intros ([|c cs'] & Hcs & ->); [now rewrite app_nil_r | discriminate].
  - rewrite IH. unfold hash_update. split.
    + intros (contents & -> & ->). exists (c :: contents).
      split; [reflexivity | simpl; now rewrite app_assoc].
    + intros ([|c' contents] & Hcs & ->); [discriminate|].
      injection Hcs as -> ->. exists contents.
      split; [reflexivity | simpl; now rewrite app_assoc].
  - split; [discriminate|].
    intros ([|c' contents] & Hcs & _); discriminate.
Qed.

(** What [createDistributionInvalidation] does once past its two early
    returns. *)
Lemma createDistributionInvalidation_proceeds
      (raw : option Invalidation.t) :
  ~ disabledOrEmpty raw ->
  createDistributionInvalidation env outputPath raw
  = (h <- hashFiles env outputPath (versionFiles env outputPath) [] ;;
     Ok (Some (DistributionInvalidation.mk
                 (invalidationPaths
                    (snd (normalizeInvalidation (invalidationConfig raw))))
                 (Crypto.md5 h)
                 (fst (normalizeInvalidation (invalidationConfig raw)))))).
Proof.
  intros Hne. unfold createDistributionInvalidation.
  destruct raw as [[|c]|]; simpl.
  - exfalso. apply Hne. now left.
  - destruct c as [w [[|[|p ps]]|]]; simpl; try reflexivity.
    exfalso. apply Hne. right. eexists. split; reflexivity.
  - reflexivity.
Qed.

Lemma createDistributionInvalidation_skips (raw : option Invalidation.t) :
  createDistributionInvalidation env outputPath raw = Ok None
  <-> disabledOrEmpty raw.
Proof.
  split.
  - intros H. destruct raw as [[|c]|]; [now left | |].
    + destruct c as [w [[|[|p ps]]|]].
      * exfalso. revert H. unfold createDistributionInvalidation. simpl.
        destruct (hashFiles _ _ _ _); discriminate.
      * right. eexists. split; reflexivity.
      * exfalso. revert H. unfold createDistributionInvalidation. simpl.
        destruct (hashFiles _ _ _ _); discriminate.
      * exfalso. revert H. unfold createDistributionInvalidation. simpl.
        destruct (hashFiles _ _ _ _); discriminate.
    + exfalso. revert H. unfold createDistributionInvalidation. simpl.
      destruct (hashFiles _ _ _ _); discriminate.
  - intros [->|(c & -> & Hp)]; [reflexivity|].
    unfold createDistributionInvalidation. simpl.
    destruct c as [w p]. simpl in Hp. subst p. reflexivity.
Qed.

End Version.

(* ================================================================== *)
(** * Properties of the specification *)

(** ** Coverage *)

Lemma NoDup_map_on {A B : Type} (f : A -> B) (l : list A) :
  (forall x y, In x l -> In y l -> f x = f y -> x = y) ->
  NoDup l -> NoDup (map f l).
Proof.
  induction l as [|a l IH]; intros Hinj Hnd; simpl; [constructor|].
  inversion Hnd as [|? ? Hnotin Hnd']; subst. constructor.
  - intros Hin. apply in_map_iff in Hin. destruct Hin as (y & Hy & Hyl).
    assert (y = a)
      by (apply Hinj; [now right | now left | assumption]).
    subst y. contradiction.
  - apply IH; [|assumption].
    intros x y Hx Hy. apply Hinj; now right.
Qed.

(** C4, as the code has it. Let the ["**"] walk of the output directory
    with [dot] and [nodir] set, no [ignore] and symlinked directories not
    followed return the paths [files] (hidden files included), and let
    glob return each match of one call once. Then every path of [files]
    has exactly one record in the plan, keyed by that path, and no key
    occurs twice. No file is read for two records provided the glob calls
    of the rules name every file by one path. *)
Theorem C4_coverage (env : Env) (outputPath : string)
        (assets : option Assets.t) (files : list string)
        (plan : list BucketFile.t) :
  starReturns env (resolve env [outputPath]) false files ->
  (forall o, In o (buildFileOptions assets) ->
             NoDup (matchedFiles env outputPath o)) ->
  uploadAssets env outputPath assets = Ok plan ->
  (forall f, In f files -> List.length (recordsOf plan f) = 1%nat)
  /\ NoDup (map BucketFile.key plan)
  /\ (namedOnce env outputPath (buildFileOptions assets) ->
      NoDup (map BucketFile.source plan)).
Proof.
  intros Hwalk Hglob Hplan.
  assert (Hnd : NoDup (map BucketFile.key plan)).
  { rewrite (uploadAssets_keys _ _ _ _ Hplan).
    apply NoDup_uploadedKeys; [constructor|].
    intros o Ho. apply Hglob. now apply in_rev. }
  split; [|split; [assumption|]].
  - intros f Hf. apply length_filter_NoDup; [assumption|].
    apply (uploadAssets_covers _ _ _ _ Hplan catchAll); [now left|].
    exact (Hwalk (uploadGlobOptions env outputPath catchAll)
                 eq_refl eq_refl eq_refl eq_refl eq_refl f Hf).
  - intros Hnamed.
    assert (Hsrc : map BucketFile.source plan
                   = map (fun k => resolve env [outputPath; k])
                         (map BucketFile.key plan)).
    { rewrite map_map. apply map_ext_in. intros r Hr.
      destruct (uploadAssets_precedence _ _ _ _ Hplan r Hr) as (o & _ & Hrec).
      apply bucketFile_Ok in Hrec. destruct Hrec as (content & _ & Hrec).
      destruct r as [src k h cc ct]. simpl in *.
      injection Hrec as -> _ _ _. reflexivity. }
    rewrite Hsrc. apply NoDup_map_on; [|assumption].
    intros k1 k2 Hk1 Hk2 Heq.
    apply in_map_iff in Hk1. destruct Hk1 as (r1 & <- & Hr1).
    apply in_map_iff in Hk2. destruct Hk2 as (r2 & <- & Hr2).
    destruct (uploadAssets_only_matched _ _ _ _ Hplan r1 Hr1)
      as (o1 & Ho1 & Hm1).
    destruct (uploadAssets_only_matched _ _ _ _ Hplan r2 Hr2)
      as (o2 & Ho2 & Hm2).
    exact (Hnamed o1 o2 _ _ Ho1 Ho2 Hm1 Hm2 Heq).
Qed.

Ltac nodup_strings :=
  repeat (constructor; [simpl; intuition discriminate|]); constructor.

Ltac split_members :=
  repeat match goal with
         | H : _ \/ _ |- _ => destruct H
         | H : False |- _ => destruct H
         end.

Lemma C4_coverage_witness :
  exists plan,
    uploadAssets Example.env0 "dist" None = Ok plan
    /\ (forall f, In f (map Example.name Example.site) ->
                  List.length (recordsOf plan f) = 1%nat)
    /\ NoDup (map BucketFile.key plan)
    /\ NoDup (map BucketFile.source plan).
Proof.
  destruct (uploadAssets Example.env0 "dist" None) as [plan|e] eqn:Hplan;
    [|vm_compute in Hplan; discriminate].
  exists plan. split; [reflexivity|].
  assert (Hwalk : starReturns Example.env0
                              (resolve Example.env0 ["dist"]) false
                              (map Example.name Example.site)).
  { intros [cwd nodir dot follow ignore] Hcwd _ _ Hfollow Hignore p Hp.
    simpl in Hcwd, Hfollow, Hignore. subst cwd follow ignore.
    vm_compute. vm_compute in Hp. exact Hp. }
  assert (Hglob : forall o, In o (buildFileOptions None) ->
                            NoDup (matchedFiles Example.env0 "dist" o)).
  { intros o [<-|[<-|[]]]; vm_compute; nodup_strings. }
  assert (Hnamed : namedOnce Example.env0 "dist" (buildFileOptions None)).
  { intros o1 o2 k1 k2 [<-|[<-|[]]] [<-|[<-|[]]] Hk1 Hk2 Heq;
      vm_compute in Hk1, Hk2; split_members; subst;
        try reflexivity; vm_compute in Heq; discriminate. }
  destruct (C4_coverage Example.env0 "dist" None
                        (map Example.name Example.site) plan
                        Hwalk Hglob Hplan)
    as (Hone & Hnd & Hsrc).
  split; [exact Hone|]. split; [exact Hnd | exact (Hsrc Hnamed)].
Defined.

(** C4 as stated fails in its last part: the loop skips the keys already
    uploaded, not the files. A user rule whose pattern is the absolute
    path of [index.html] has glob return that absolute path, which the
    catch-all rule's [index.html] does not equal: the plan holds two
    records read from the one file. *)
Lemma C4_absolute_pattern_two_records :
  In "index.html" (map Example.name Example.site)
  /\ exists plan,
      uploadAssets Walker.plainEnv "dist" Walker.absoluteAssets = Ok plan
      /\ map BucketFile.key (recordsFrom plan "/site/dist/index.html")
         = ["/site/dist/index.html"; "index.html"].
Proof.
  split; [simpl; tauto|].
  eexists. split; [vm_compute; reflexivity | reflexivity].
Qed.

(** ** Content types *)

(** C7. When the extension [getContentType] looks up is not a key of the
    extension table, the result is [application/octet-stream] without a
    charset suffix, whatever the text encoding; the function is total, and
    every record of a plan for such a file carries that content type. *)
Theorem C7_unknown_extension_fallback (filename : string) :
  lookup extensions (contentTypeExt filename) = None ->
  (forall textEncoding,
      getContentType filename textEncoding = "application/octet-stream")
  /\ forall env outputPath assets plan r,
      uploadAssets env outputPath assets = Ok plan ->
      In r plan -> BucketFile.key r = filename ->
      BucketFile.contentType r = "application/octet-stream".
Proof.
  intros Hext.
  assert (H : forall textEncoding,
             getContentType filename textEncoding
             = "application/octet-stream")
    by (intros enc; unfold getContentType; now rewrite Hext).
  split; [exact H|].
  intros env outputPath assets plan r Hplan Hin <-.
  rewrite (uploadAssets_contentType _ _ _ _ Hplan r Hin). apply H.
Qed.

Lemma C7_unknown_extension_fallback_witness :
  lookup extensions (contentTypeExt "app.webmanifest") = None
  /\ getContentType "app.webmanifest" "utf-8" = "application/octet-stream"
  /\ getContentType "archive.tar.gz" "iso-8859-1"
     = "application/octet-stream".
Proof.
  split; [reflexivity|]. split.
  - exact (proj1 (C7_unknown_extension_fallback "app.webmanifest" eq_refl)
                  "utf-8").
  - exact (proj1 (C7_unknown_extension_fallback "archive.tar.gz" eq_refl)
                  "iso-8859-1").
Defined.

(** ** Invalidation *)

(** C6. Whenever a request is created: if the paths of the invalidation
    argument are ["all"] or left out (["all"] being the default), the
    request's paths are the one-element list [["/*"]]; if [wait] is left
    out, the request's [wait] is [false]. *)
Theorem C6_invalidation_defaults (env : Env) (outputPath : string)
        (raw : option Invalidation.t) (r : DistributionInvalidation.t) :
  createDistributionInvalidation env outputPath raw = Ok (Some r) ->
  (pathsAllOrOmitted raw -> DistributionInvalidation.paths r = ["/*"])
  /\ (waitOmitted raw -> DistributionInvalidation.wait r = false).
Proof.
  intros H.
  assert (Hne : ~ disabledOrEmpty raw).
  { intros Hd.
    apply (proj2 (createDistributionInvalidation_skips env outputPath raw))
      in Hd.
    rewrite Hd in H. discriminate. }
  rewrite (createDistributionInvalidation_proceeds _ _ _ Hne) in H.
  destruct (hashFiles env outputPath (versionFiles env outputPath) [])
    as [h|e]; simpl in H; [|discriminate].
  injection H as <-. simpl.
  destruct raw as [[|[w p]]|]; simpl.
  - split; intros [].
  - split.
    + intros [->| ->]; reflexivity.
    + intros ->. reflexivity.
  - split; reflexivity.
Qed.

Lemma C6_invalidation_defaults_witness :
  exists r,
    createDistributionInvalidation Example.env0 "dist" None = Ok (Some r)
    /\ DistributionInvalidation.paths r = ["/*"]
    /\ DistributionInvalidation.wait r = false.
Proof.
  destruct (createDistributionInvalidation Example.env0 "dist" None)
    as [[r|]|e] eqn:H; try (vm_compute in H; discriminate).
  exists r. split; [reflexivity|].
  destruct (C6_invalidation_defaults Example.env0 "dist" None r H)
    as [Hp Hw].
  split; [apply Hp | apply Hw]; exact I.
Defined.

(** C5, as the code has it. [createDistributionInvalidation] returns
    without creating a request exactly when the invalidation argument is
    [false] or its paths are an empty array. In every other case, the
    argument left out included, it hashes the files: a request is created
    when every file can be read, and the exception of the failing read is
    thrown otherwise. *)
Theorem C5_invalidation_skipped_iff (env : Env) (outputPath : string)
        (raw : option Invalidation.t) :
  (createDistributionInvalidation env outputPath raw = Ok None
   <-> disabledOrEmpty raw)
  /\ (~ disabledOrEmpty raw ->
      match hashFiles env outputPath (versionFiles env outputPath) [] with
      | Ok h =>
          exists r,
            createDistributionInvalidation env outputPath raw = Ok (Some r)
            /\ DistributionInvalidation.version r = Crypto.md5 h
      | Throw e =>
          createDistributionInvalidation env outputPath raw = Throw e
      end).
Proof.
  split; [apply createDistributionInvalidation_skips|].
  intros Hne. rewrite (createDistributionInvalidation_proceeds _ _ _ Hne).
  destruct (hashFiles env outputPath (versionFiles env outputPath) [])
    as [h|e]; simpl; [|reflexivity].
  eexists. split; reflexivity.
Qed.

Lemma omitted_not_disabledOrEmpty : ~ disabledOrEmpty None.
Proof. intros [H|(c & H & _)]; discriminate. Qed.

Lemma C5_invalidation_skipped_iff_witness :
  ~ disabledOrEmpty None
  /\ exists r,
      createDistributionInvalidation Example.env0 "dist" None = Ok (Some r).
Proof.
  split; [exact omitted_not_disabledOrEmpty|].
  pose proof (proj2 (C5_invalidation_skipped_iff Example.env0 "dist" None)
                    omitted_not_disabledOrEmpty) as H.
  destruct (hashFiles Example.env0 "dist" (versionFiles Example.env0 "dist") [])
    as [h|e] eqn:Hh; [|vm_compute in Hh; discriminate].
  destruct H as (r & Hr & _). now exists r.
Defined.

(** C5 as stated fails: with the invalidation argument left out and a file
    that cannot be read, no request is returned. *)
Lemma C5_unreadable_file_no_request :
  ~ disabledOrEmpty None
  /\ (exists e,
         createDistributionInvalidation
           (Example.env false Example.locked) "dist" None = Throw e)
  /\ forall r,
      createDistributionInvalidation
        (Example.env false Example.locked) "dist" None <> Ok (Some r).
Proof.
  split; [exact omitted_not_disabledOrEmpty|].
  split; [eexists; vm_compute; reflexivity|].
  intros r H. vm_compute in H. discriminate.
Qed.

(** C2, as the code has it. The version is the hex MD5 of the file
    contents concatenated in the order glob returns the files; the
    component imposes no order of its own. Two runs in which glob
    enumerates files with the same contents in the same order create the
    same request, whatever the paths of the files. *)
Theorem C2_version_determined_by_contents (env1 env2 : Env)
        (outputPath1 outputPath2 : string) (raw : option Invalidation.t)
        (r : DistributionInvalidation.t) :
  versionContents env1 outputPath1 = versionContents env2 outputPath2 ->
  createDistributionInvalidation env1 outputPath1 raw = Ok (Some r) ->
  createDistributionInvalidation env2 outputPath2 raw = Ok (Some r)
  /\ exists contents,
      versionContents env1 outputPath1 = map Some contents
      /\ DistributionInvalidation.version r = Crypto.md5 (List.concat contents).
Proof.
  intros Hsame H1.
  assert (Hne : ~ disabledOrEmpty raw).
  { intros Hd.
    apply (proj2 (createDistributionInvalidation_skips env1 outputPath1 raw))
      in Hd.
    rewrite Hd in H1. discriminate. }
  rewrite (createDistributionInvalidation_proceeds _ _ _ Hne) in H1.
  rewrite (createDistributionInvalidation_proceeds _ _ _ Hne).
  destruct (hashFiles env1 outputPath1 (versionFiles env1 outputPath1) [])
    as [h|e] eqn:Hh; simpl in H1; [|discriminate].
  apply hashFiles_hashContents in Hh.
  fold (versionContents env1 outputPath1) in Hh. split.
  - rewrite Hsame in Hh. apply hashFiles_hashContents in Hh.
    rewrite Hh. exact H1.
  - apply hashContents_concat in Hh. destruct Hh as (contents & Hcs & ->).
    exists contents. split; [assumption|].
    injection H1 as <-. reflexivity.
Qed.

Lemma C2_version_determined_by_contents_witness :
  versionContents (Example.env false Example.listingAB) "dist"
  = versionContents (Example.env false Example.listingXY) "dist"
  /\ exists r,
      createDistributionInvalidation
        (Example.env false Example.listingAB) "dist" None = Ok (Some r)
      /\ createDistributionInvalidation
           (Example.env false Example.listingXY) "dist" None = Ok (Some r).
Proof.
  split; [reflexivity|].
  destruct (createDistributionInvalidation
              (Example.env false Example.listingAB) "dist" None)
    as [[r|]|e] eqn:H; try (vm_compute in H; discriminate).
  exists r. split; [reflexivity|].
  apply (C2_version_determined_by_contents
           (Example.env false Example.listingAB)
           (Example.env false Example.listingXY) "dist" "dist" None r);
    [reflexivity | exact H].
Defined.

(** C2 as stated fails: two directories with the same contents at the same
    paths, enumerated by glob in different orders, get different
    versions. *)
Lemma C2_enumeration_order_changes_version :
  (forall source,
      readFile (Example.env false Example.listingAB) source
      = readFile (Example.env false Example.listingBA) source)
  /\ versionFiles (Example.env false Example.listingAB) "dist"
     = ["a.txt"; "b.txt"]
  /\ versionFiles (Example.env false Example.listingBA) "dist"
     = ["b.txt"; "a.txt"]
  /\ exists r1 r2,
      createDistributionInvalidation
        (Example.env false Example.listingAB) "dist" None = Ok (Some r1)
      /\ createDistributionInvalidation
           (Example.env false Example.listingBA) "dist" None = Ok (Some r2)
      /\ DistributionInvalidation.version r1
         <> DistributionInvalidation.version r2.
Proof.
  split.
  { intros source. simpl.
    destruct (String.eqb source "/site/dist/a.txt") eqn:Ha;
      destruct (String.eqb source "/site/dist/b.txt") eqn:Hb;
      try reflexivity.
    apply String.eqb_eq in Ha. apply String.eqb_eq in Hb.
    rewrite Ha in Hb. discriminate. }
  split; [reflexivity|]. split; [reflexivity|].
  eexists. eexists. split; [vm_compute; reflexivity|].
  split; [vm_compute; reflexivity|].
  vm_compute. discriminate.
Qed.

(** ** Rule precedence and content type of the records *)

(** C1 at the input where it fails. The user rule for [*.webmanifest] is
    the rule declared last among those matching [app.webmanifest], and its
    [cacheControl] reaches the record; its [contentType] does not: the
    record gets the extension-derived [application/octet-stream]. *)
Theorem C1_rule_contentType_not_applied :
  lastMatching Example.env0 "dist"
               (buildFileOptions Example.manifestAssets)
               "app.webmanifest" Example.manifestRule
  /\ FileOptions.contentType Example.manifestRule
     = Some "application/manifest+json"
  /\ exists plan,
      uploadAssets Example.env0 "dist" Example.manifestAssets = Ok plan
      /\ map (fun r => (BucketFile.cacheControl r, BucketFile.contentType r))
             (recordsOf plan "app.webmanifest")
         = [(Some "max-age=3600", "application/octet-stream")].
Proof.
  split.
  { exists [catchAll; jsCssRule], []. split; [reflexivity|].
    split; [vm_compute; reflexivity | intros o' []]. }
  split; [reflexivity|].
  eexists. split; vm_compute; reflexivity.
Qed.

(** C3 at the input where it fails. With [assets.textEncoding] set to
    ["none"], [getContentType] called with that encoding gives the bare
    [text/html], but the record of [index.html] carries a charset, the
    fixed ["UTF-8"] that [uploadAssets] passes. *)
Theorem C3_textEncoding_not_applied :
  getContentType "index.html" (encodingName NoEncoding) = "text/html"
  /\ getContentType "index.html" (encodingName Utf8)
     = "text/html;charset=utf-8"
  /\ exists plan,
      uploadAssets Example.env0 "dist" Example.noCharsetAssets = Ok plan
      /\ map BucketFile.contentType (recordsOf plan "index.html")
         = ["text/html;charset=UTF-8"].
Proof.
  split; [reflexivity|]. split; [reflexivity|].
  eexists. split; vm_compute; reflexivity.
Qed.

(** The default rulebook on the example site: scripts get the immutable
    [Cache-Control], every other file the no-cache one. *)
Example default_rulebook_cacheControl :
  exists plan,
    uploadAssets Example.env0 "dist" None = Ok plan
    /\ map (fun r => (BucketFile.key r, BucketFile.cacheControl r)) plan
       = [ ("app.js", Some "max-age=31536000,public,immutable");
           ("index.html", Some "max-age=0,no-cache,no-store,must-revalidate");
           ("logo.png", Some "max-age=0,no-cache,no-store,must-revalidate");
           (".well-known/site-association-json",
            Some "max-age=0,no-cache,no-store,must-revalidate");
           ("app.webmanifest",
            Some "max-age=0,no-cache,no-store,must-revalidate") ].
Proof. eexists. split; vm_compute; reflexivity. Qed.

(** C9, as the code has it. A user rule without [cacheControl] that
    matches a file, and after which no user rule matching the file is
    declared, governs the file: the file has a record, and every record of
    the file has no [cacheControl], whatever the built-in rules would
    give. *)
Theorem C9_bare_user_rule_shadows_builtins (env : Env) (outputPath : string)
        (assets : option Assets.t) (plan : list BucketFile.t)
        (earlier later : list FileOptions.t) (u : FileOptions.t)
        (f : string) :
  userFileOptions assets = earlier ++ u :: later ->
  FileOptions.cacheControl u = None ->
  matches env outputPath u f = true ->
  (forall o, In o later -> matches env outputPath o f = false) ->
  uploadAssets env outputPath assets = Ok plan ->
  (exists r, In r plan /\ BucketFile.key r = f)
  /\ forall r, In r plan -> BucketFile.key r = f ->
               BucketFile.cacheControl r = None.
Proof.
  intros Hrules Hbare Hu Hlater Hplan.
  assert (Hbook : buildFileOptions assets
                  = ([catchAll; jsCssRule] ++ earlier) ++ u :: later)
    by (unfold buildFileOptions; now rewrite Hrules, <- app_assoc).
  split.
  - assert (Hin : In f (map BucketFile.key plan)).
    { apply (uploadAssets_covers _ _ _ _ Hplan u).
      - rewrite Hbook. apply in_or_app. right. now left.
      - now apply includes_true. }
    apply in_map_iff in Hin. destruct Hin as (r & Hk & Hr). now exists r.
  - intros r Hin <-.
    destruct (uploadAssets_cacheControl _ _ _ _ Hplan r Hin)
      as (o & (e' & l' & Hdec & Ho & Hl') & ->).
    rewrite Hbook in Hdec.
    now rewrite <- (last_hit_unique _ _ _ _ _ _ _ Hdec Hu Hlater Ho Hl').
Qed.

Lemma C9_bare_user_rule_shadows_builtins_witness :
  matches Example.env0 "dist" catchAll "index.html" = true
  /\ exists plan,
      uploadAssets Example.env0 "dist" Example.oneHtmlRule = Ok plan
      /\ (exists r, In r plan /\ BucketFile.key r = "index.html")
      /\ forall r, In r plan -> BucketFile.key r = "index.html" ->
                   BucketFile.cacheControl r = None.
Proof.
  split; [reflexivity|].
  destruct (uploadAssets Example.env0 "dist" Example.oneHtmlRule)
    as [plan|e] eqn:Hplan; [|vm_compute in Hplan; discriminate].
  exists plan. split; [reflexivity|].
  apply (C9_bare_user_rule_shadows_builtins
           Example.env0 "dist" Example.oneHtmlRule plan
           [] [] Example.htmlBare "index.html");
    [reflexivity | reflexivity | reflexivity | intros o [] | exact Hplan].
Defined.

(** C9 as stated fails: [htmlBare] is a user rule without [cacheControl]
    that matches [index.html], yet the record of [index.html] carries the
    [cacheControl] of the user rule declared after it. *)
Lemma C9_later_user_rule_wins :
  userFileOptions Example.twoHtmlRules
  = [Example.htmlBare; Example.htmlShort]
  /\ FileOptions.cacheControl Example.htmlBare = None
  /\ matches Example.env0 "dist" Example.htmlBare "index.html" = true
  /\ exists plan,
      uploadAssets Example.env0 "dist" Example.twoHtmlRules = Ok plan
      /\ map BucketFile.cacheControl (recordsOf plan "index.html")
         = [Some "max-age=60"].
Proof.
  split; [reflexivity|]. split; [reflexivity|]. split; [reflexivity|].
  eexists. split; vm_compute; reflexivity.
Qed.

(** ** Failures *)

(** Outside dev mode [buildApp] throws when the directory it validates
    does not exist, whether or not a build command ran. *)
Lemma buildApp_missing_output (env : Env) (name sitePath : string)
      (args : StaticSiteArgs.t) :
  dev env = false ->
  existsSync env (outputRoot args sitePath) = false ->
  exists e, buildApp env name sitePath args = Throw e.
Proof.
  intros Hdev Hmissing. unfold buildApp. rewrite Hdev.
  match goal with
  | [ |- context [bind ?m _] ] => destruct m as [[]|e]
  end; unfold bind; [|now exists e].
  cbv zeta. fold (outputRoot args sitePath). rewrite Hmissing.
  eexists. reflexivity.
Qed.


(** C8, as the code has it. Outside dev mode: when the output directory
    does not exist, no plan is produced and an error is thrown; when one
    file matched by a rule cannot be read, [uploadAssets] throws; and a plan
    that is produced has a record for every file of the output directory.
    A result is either a whole plan or an exception, never part of a
    plan. *)
Theorem C8_fail_fast_outside_dev (env : Env) (name : string)
        (args : StaticSiteArgs.t) :
  dev env = false ->
  (forall sitePath,
      normalizeSitePath env args = Ok sitePath ->
      existsSync env (outputRoot args sitePath) = false ->
      exists e, assetFiles env name args = Throw e)
  /\ (forall outputPath o f,
         In o (buildFileOptions (StaticSiteArgs.assets args)) ->
         In f (matchedFiles env outputPath o) ->
         readFile env (resolve env [outputPath; f]) = None ->
         exists e,
           uploadAssets env outputPath (StaticSiteArgs.assets args) = Throw e)
  /\ (forall outputPath plan,
         uploadAssets env outputPath (StaticSiteArgs.assets args) = Ok plan ->
         forall f, In f (treeFiles env outputPath) ->
                   In f (map BucketFile.key plan)
                   /\ readFile env (resolve env [outputPath; f]) <> None).
Proof.
  intros Hdev. split; [|split].
  - intros sitePath Hsite Hmissing.
    destruct (buildApp_missing_output env name sitePath args Hdev Hmissing)
      as [e He].
    exists e. unfold assetFiles, outputPathOf.
    rewrite Hsite. cbn [bind]. rewrite He. reflexivity.
  - intros outputPath o f Ho Hf Hread.
    apply (uploadLoop_Throw env outputPath _ [] [] o f);
      [now apply in_rev in Ho | assumption | intros [] | assumption].
  - intros outputPath plan Hplan f Hf. split.
    + apply (uploadAssets_covers _ _ _ _ Hplan catchAll);
        [now left | assumption].
    + intros Hread.
      destruct (uploadLoop_Throw env outputPath
                  (rev (buildFileOptions (StaticSiteArgs.assets args)))
                  [] [] catchAll f) as [e He];
        [apply in_rev; rewrite rev_involutive; now left
        | assumption | intros [] | assumption |].
      unfold uploadAssets in Hplan. congruence.
Qed.

Lemma C8_fail_fast_outside_dev_witness :
  (exists e,
      assetFiles Example.env0 "Web"
                 (StaticSiteArgs.mk None None (Some "build") None None)
      = Throw e)
  /\ exists e,
      uploadAssets (Example.env false Example.locked) "dist" None = Throw e.
Proof.
  split.
  - apply (proj1 (C8_fail_fast_outside_dev
                    Example.env0 "Web"
                    (StaticSiteArgs.mk None None (Some "build") None None)
                    eq_refl) ".");
      reflexivity.
  - apply (proj1 (proj2 (C8_fail_fast_outside_dev
                           (Example.env false Example.locked) "Web"
                           (Example.args None None) eq_refl))
                 "dist" catchAll "locked.bin");
      [now left | vm_compute; tauto | reflexivity].
Defined.

(** C8 as stated fails in dev mode: [buildApp] hands over the placeholder
    directory without checking that it exists, and a plan (the empty one,
    glob finding nothing there) is produced. *)
Lemma C8_dev_mode_skips_validation :
  existsSync (Example.env true Example.site)
             (emptySitePath (Example.env true Example.site)) = false
  /\ outputPathOf (Example.env true Example.site) "Web"
                  (Example.args None None)
     = Ok (emptySitePath (Example.env true Example.site))
  /\ assetFiles (Example.env true Example.site) "Web"
                (Example.args None None) = Ok [].
Proof. split; [reflexivity|]. split; vm_compute; reflexivity. Qed.

(** ** Symlinked directories *)



(* ================================================================== *)
(** * Further properties of the component *)

(** ** The upload plan *)

Lemma mapM_Throw_inv {A B : Type} (f : A -> result B) (xs : list A)
      (e : error) :
  mapM f xs = Throw e -> exists x, In x xs /\ f x = Throw e.
Proof.
  induction xs as [|x xs IH]; simpl; [discriminate|].
  destruct (f x) as [y|e'] eqn:Hx; simpl.
  - destruct (mapM f xs) as [ys|e'] eqn:Hxs; simpl; [discriminate|].
    intros H. injection H as ->.
    destruct (IH eq_refl) as (x' & Hin & Hx').
    exists x'. split; [now right | assumption].
  - intros H. injection H as ->. exists x. split; [now left | assumption].
Qed.

Lemma bucketFile_Throw_inv (env : Env) (outputPath : string)
      (o : FileOptions.t) (file : string) (e : error) :
  bucketFile env outputPath o file = Throw e ->
  readFile env (resolve env [outputPath; file]) = None
  /\ e = ReadError (resolve env [outputPath; file]).
Proof.
  unfold bucketFile.
  destruct (readFile env (resolve env [outputPath; file])); [discriminate|].
  intros H. injection H as <-. split; reflexivity.
Qed.

Lemma uploadLoop_Throw_inv (env : Env) (outputPath : string)
      (opts : list FileOptions.t) :
  forall bf fu e,
    uploadLoop env outputPath opts bf fu = Throw e ->
    exists o f,
      In o opts /\ In f (matchedFiles env outputPath o)
      /\ readFile env (resolve env [outputPath; f]) = None
      /\ e = ReadError (resolve env [outputPath; f]).
Proof.
  induction opts as [|o opts IH]; simpl; intros bf fu e H; [discriminate|].
  destruct (mapM (bucketFile env outputPath o)
                 (filter (fun file => negb (Js.includes fu file))
                         (matchedFiles env outputPath o)))
    as [rs|e'] eqn:Hm; simpl in H.
  - destruct (IH _ _ _ H) as (o' & f & Ho' & Hf & Hread & He).
    exists o', f. repeat split; try assumption. now right.
  - injection H as ->. apply mapM_Throw_inv in Hm.
    destruct Hm as (f & Hin & Hf). apply In_fresh in Hin.
    apply bucketFile_Throw_inv in Hf. destruct Hf as [Hread He].
    exists o, f. repeat split; solve [tauto | now left].
Qed.

(** A rule whose every match is already uploaded, or matched by a rule
    the loop visits before it, pushes nothing. *)
Lemma uploadLoop_shadowed (env : Env) (outputPath : string)
      (u : FileOptions.t) (before after : list FileOptions.t) :
  forall bf fu,
    (forall f, In f (matchedFiles env outputPath u) ->
               In f fu
               \/ exists o, In o before
                            /\ In f (matchedFiles env outputPath o)) ->
    uploadLoop env outputPath (before ++ u :: after) bf fu
    = uploadLoop env outputPath (before ++ after) bf fu.
Proof.
  induction before as [|o before IH]; simpl; intros bf fu Hcov.
  - assert (Hnil : filter (fun file => negb (Js.includes fu file))
                          (matchedFiles env outputPath u) = []).
    { destruct (filter _ (matchedFiles env outputPath u)) as [|f rest] eqn:Hf;
        [reflexivity|].
      assert (Hin : In f (filter (fun file => negb (Js.includes fu file))
                                 (matchedFiles env outputPath u)))
        by (rewrite Hf; now left).
      apply In_fresh in Hin. destruct Hin as [Hm Hfu].
      destruct (Hcov f Hm) as [H|(o & [] & _)]. contradiction. }
    rewrite Hnil. simpl. now rewrite !app_nil_r.
  - destruct (mapM (bucketFile env outputPath o) _) as [rs|e]; simpl;
      [|reflexivity].
    apply IH. intros f Hf.
    destruct (Hcov f Hf) as [H|(o' & [->|Ho'] & Hm)].
    + left. apply in_or_app. now left.
    + left. apply in_or_app.
      destruct (in_dec string_dec f fu) as [Hfu|Hfu]; [now left|].
      right. apply In_fresh. now split.
    + right. now exists o'.
Qed.

(** X1. In every plan, the [Cache-Control] of every record is the one of
    the rule declared last, in [[catchAll, jsCssRule, ...userRules]], among
    the rules whose glob returns the record's key. *)
Theorem X1_cacheControl_of_last_matching_rule (env : Env)
        (outputPath : string) (assets : option Assets.t)
        (plan : list BucketFile.t) (r : BucketFile.t) :
  uploadAssets env outputPath assets = Ok plan ->
  In r plan ->
  exists o,
    lastMatching env outputPath (buildFileOptions assets) (BucketFile.key r) o
    /\ BucketFile.cacheControl r = FileOptions.cacheControl o.
Proof.
  intros Hplan Hin. exact (uploadAssets_cacheControl _ _ _ _ Hplan r Hin).
Qed.

Lemma X1_cacheControl_of_last_matching_rule_witness :
  exists plan r o,
    uploadAssets Example.env0 "dist" Example.twoHtmlRules = Ok plan
    /\ In r plan /\ BucketFile.key r = "index.html"
    /\ lastMatching Example.env0 "dist"
                    (buildFileOptions Example.twoHtmlRules)
                    (BucketFile.key r) o
    /\ BucketFile.cacheControl r = FileOptions.cacheControl o.
Proof.
  destruct (uploadAssets Example.env0 "dist" Example.twoHtmlRules)
    as [plan|e] eqn:Hplan; [|vm_compute in Hplan; discriminate].
  assert (Hr : exists r, In r plan /\ BucketFile.key r = "index.html").
  { assert (Hk : In "index.html" (map BucketFile.key plan)).
    { apply (uploadAssets_covers _ _ _ _ Hplan catchAll);
        [now left | vm_compute; tauto]. }
    apply in_map_iff in Hk. destruct Hk as (r & Hk & Hin).
    exists r. split; assumption. }
  destruct Hr as (r & Hin & Hk).
  destruct (X1_cacheControl_of_last_matching_rule
              Example.env0 "dist" Example.twoHtmlRules plan r Hplan Hin)
    as (o & Hlast & Hcc).
  exists plan, r, o. repeat split; assumption.
Defined.

(** X2. [uploadAssets] throws exactly when some file matched by some rule
    of the rulebook cannot be read, and what it throws is the read error
    of such a file; otherwise it returns a plan. *)
Theorem X2_upload_throws_iff_unreadable (env : Env) (outputPath : string)
        (assets : option Assets.t) :
  (forall e,
      uploadAssets env outputPath assets = Throw e ->
      exists o f,
        In o (buildFileOptions assets)
        /\ In f (matchedFiles env outputPath o)
        /\ readFile env (resolve env [outputPath; f]) = None
        /\ e = ReadError (resolve env [outputPath; f]))
  /\ ((exists o f,
          In o (buildFileOptions assets)
          /\ In f (matchedFiles env outputPath o)
          /\ readFile env (resolve env [outputPath; f]) = None) ->
      exists e, uploadAssets env outputPath assets = Throw e).
Proof.
  split.
  - intros e H. apply uploadLoop_Throw_inv in H.
    destruct H as (o & f & Ho & Hrest).
    exists o, f. split; [now apply in_rev | assumption].
  - intros (o & f & Ho & Hf & Hread).
    apply (uploadLoop_Throw env outputPath _ [] [] o f);
      [now apply in_rev in Ho | assumption | intros [] | assumption].
Qed.

Lemma X2_upload_throws_iff_unreadable_witness :
  readFile (Example.env false Example.locked)
           (resolve (Example.env false Example.locked)
                    ["dist"; "locked.bin"]) = None
  /\ exists e,
      uploadAssets (Example.env false Example.locked) "dist" None = Throw e.
Proof.
  split; [reflexivity|].
  apply (proj2 (X2_upload_throws_iff_unreadable
                  (Example.env false Example.locked) "dist" None)).
  exists catchAll, "locked.bin".
  split; [now left|]. split; [vm_compute; tauto | reflexivity].
Defined.

(** X3. Every record of a plan describes the file it is keyed by: its
    source is the key resolved against the output directory, its hash is
    the hex SHA-256 of the bytes read from that source, and its content
    type is [getContentType] of the key with the fixed encoding ["UTF-8"],
    whatever rule produced the record. *)
Theorem X3_record_fields (env : Env) (outputPath : string)
        (assets : option Assets.t) (plan : list BucketFile.t)
        (r : BucketFile.t) :
  uploadAssets env outputPath assets = Ok plan ->
  In r plan ->
  BucketFile.source r = resolve env [outputPath; BucketFile.key r]
  /\ (exists content,
         readFile env (BucketFile.source r) = Some content
         /\ BucketFile.hash r = Crypto.sha256 content)
  /\ BucketFile.contentType r = getContentType (BucketFile.key r) "UTF-8".
Proof.
  intros Hplan Hin.
  destruct (uploadAssets_precedence _ _ _ _ Hplan r Hin) as (o & _ & Hr).
  apply bucketFile_Ok in Hr. destruct Hr as (content & Hread & Hrec).
  destruct r as [src k h cc ct]. simpl in *.
  injection Hrec as -> -> _ ->.
  split; [reflexivity|]. split; [|reflexivity].
  exists content. split; [assumption | reflexivity].
Qed.

Lemma X3_record_fields_witness :
  exists plan r,
    uploadAssets Example.env0 "dist" None = Ok plan
    /\ In r plan
    /\ BucketFile.key r = "logo.png"
    /\ BucketFile.source r = "/site/dist/logo.png"
    /\ BucketFile.contentType r = "image/png".
Proof.
  destruct (uploadAssets Example.env0 "dist" None) as [plan|e] eqn:Hplan;
    [|vm_compute in Hplan; discriminate].
  assert (Hk : In "logo.png" (map BucketFile.key plan)).
  { apply (uploadAssets_covers _ _ _ _ Hplan catchAll);
      [now left | vm_compute; tauto]. }
  apply in_map_iff in Hk. destruct Hk as (r & Hk & Hin).
  destruct (X3_record_fields Example.env0 "dist" None plan r Hplan Hin)
    as (Hsrc & _ & Hct).
  exists plan, r. rewrite Hk in Hsrc, Hct.
  repeat split; assumption.
Defined.

(** X4. Without user rules, every record carries a [Cache-Control]: the
    immutable one when the built-in [*.js]/[*.css] rule matches its key,
    the no-cache one of the catch-all otherwise. *)
Theorem X4_default_cacheControl (env : Env) (outputPath : string)
        (assets : option Assets.t) (plan : list BucketFile.t)
        (r : BucketFile.t) :
  userFileOptions assets = [] ->
  uploadAssets env outputPath assets = Ok plan ->
  In r plan ->
  BucketFile.cacheControl r
  = Some (if matches env outputPath jsCssRule (BucketFile.key r)
          then "max-age=31536000,public,immutable"
          else "max-age=0,no-cache,no-store,must-revalidate").
Proof.
  intros Huser Hplan Hin.
  destruct (uploadAssets_cacheControl _ _ _ _ Hplan r Hin)
    as (o & (earlier & later & Hdec & Ho & Hlater) & ->).
  unfold buildFileOptions in Hdec. rewrite Huser in Hdec. simpl in Hdec.
  destruct earlier as [|a [|a' [|a'' earlier]]]; simpl in Hdec.
  - injection Hdec as <- <-.
    rewrite (Hlater jsCssRule (or_introl eq_refl)). reflexivity.
  - injection Hdec as _ <- _. rewrite Ho. reflexivity.
  - discriminate Hdec.
  - discriminate Hdec.
Qed.

Lemma X4_default_cacheControl_witness :
  exists plan,
    uploadAssets Example.env0 "dist" None = Ok plan
    /\ forall r, In r plan ->
         BucketFile.cacheControl r
         = Some (if matches Example.env0 "dist" jsCssRule (BucketFile.key r)
                 then "max-age=31536000,public,immutable"
                 else "max-age=0,no-cache,no-store,must-revalidate").
Proof.
  destruct (uploadAssets Example.env0 "dist" None) as [plan|e] eqn:Hplan;
    [|vm_compute in Hplan; discriminate].
  exists plan. split; [reflexivity|].
  intros r Hin.
  exact (X4_default_cacheControl Example.env0 "dist" None plan r
                                 eq_refl Hplan Hin).
Defined.

(** X5. The keys of a plan are exactly the files that the glob call of
    some rule of the rulebook returns: a file matched only by a user rule
    is uploaded too, and nothing else is. *)
Theorem X5_plan_keys (env : Env) (outputPath : string)
        (assets : option Assets.t) (plan : list BucketFile.t) (f : string) :
  uploadAssets env outputPath assets = Ok plan ->
  (In f (map BucketFile.key plan)
   <-> exists o, In o (buildFileOptions assets)
                 /\ In f (matchedFiles env outputPath o)).
Proof.
  intros Hplan. split.
  - intros Hin. apply in_map_iff in Hin. destruct Hin as (r & <- & Hr).
    exact (uploadAssets_only_matched _ _ _ _ Hplan r Hr).
  - intros (o & Ho & Hf).
    exact (uploadAssets_covers _ _ _ _ Hplan o f Ho Hf).
Qed.

Lemma X5_plan_keys_witness :
  exists plan,
    uploadAssets Walker.plainEnv "dist" Walker.absoluteAssets = Ok plan
    /\ In "/site/dist/index.html" (map BucketFile.key plan)
    /\ ~ In "missing.txt" (map BucketFile.key plan).
Proof.
  destruct (uploadAssets Walker.plainEnv "dist" Walker.absoluteAssets)
    as [plan|e] eqn:Hplan; [|vm_compute in Hplan; discriminate].
  exists plan. split; [reflexivity|].
  pose proof (X5_plan_keys Walker.plainEnv "dist" Walker.absoluteAssets plan)
    as Hkeys.
  split.
  - apply (Hkeys "/site/dist/index.html" Hplan).
    exists Walker.absoluteRule.
    split; [simpl; tauto | vm_compute; tauto].
  - intros Hin. apply (Hkeys "missing.txt" Hplan) in Hin.
    destruct Hin as (o & Ho & Hf).
    simpl in Ho. destruct Ho as [<-|[<-|[<-|[]]]];
      vm_compute in Hf; intuition discriminate.
Defined.

(** X6. The built-in rules always set a [Cache-Control]: a record without
    one is governed by a user rule that has none, the user rule declared
    last among the rules matching its key. *)
Theorem X6_missing_cacheControl_is_user_choice (env : Env)
        (outputPath : string) (assets : option Assets.t)
        (plan : list BucketFile.t) (r : BucketFile.t) :
  uploadAssets env outputPath assets = Ok plan ->
  In r plan ->
  BucketFile.cacheControl r = None ->
  exists u,
    In u (userFileOptions assets)
    /\ FileOptions.cacheControl u = None
    /\ lastMatching env outputPath (buildFileOptions assets)
                    (BucketFile.key r) u.
Proof.
  intros Hplan Hin Hnone.
  destruct (uploadAssets_cacheControl _ _ _ _ Hplan r Hin)
    as (o & Hlast & Hcc).
  rewrite Hnone in Hcc. exists o. split; [|split; [now symmetry|assumption]].
  destruct Hlast as (earlier & later & Hdec & _).
  assert (Ho : In o (buildFileOptions assets))
    by (rewrite Hdec; apply in_or_app; right; now left).
  unfold buildFileOptions in Ho. simpl in Ho.
  destruct Ho as [<-|[<-|Ho]]; [discriminate | discriminate | assumption].
Qed.

Lemma X6_missing_cacheControl_is_user_choice_witness :
  exists plan r u,
    uploadAssets Example.env0 "dist" Example.oneHtmlRule = Ok plan
    /\ In r plan
    /\ BucketFile.cacheControl r = None
    /\ In u (userFileOptions Example.oneHtmlRule)
    /\ FileOptions.cacheControl u = None.
Proof.
  destruct (uploadAssets Example.env0 "dist" Example.oneHtmlRule)
    as [plan|e] eqn:Hplan; [|vm_compute in Hplan; discriminate].
  assert (Hr : exists r, In r plan /\ BucketFile.cacheControl r = None).
  { pose proof Hplan as Hp. vm_compute in Hp. injection Hp as <-.
    eexists. split; [left; reflexivity | reflexivity]. }
  destruct Hr as (r & Hin & Hnone).
  destruct (X6_missing_cacheControl_is_user_choice
              Example.env0 "dist" Example.oneHtmlRule plan r Hplan Hin Hnone)
    as (u & Hu & Hbare & _).
  exists plan, r, u. repeat split; assumption.
Defined.

(** X7. A user rule all of whose matches are also matched by user rules
    declared after it has no effect: removing it leaves the outcome of
    [uploadAssets], plan or exception, unchanged. *)
Theorem X7_shadowed_user_rule_is_inert (env : Env) (outputPath : string)
        (textEncoding : option TextEncoding)
        (earlier later : list FileOptions.t) (u : FileOptions.t) :
  (forall f, In f (matchedFiles env outputPath u) ->
             exists o, In o later /\ In f (matchedFiles env outputPath o)) ->
  uploadAssets env outputPath
               (Some (Assets.mk textEncoding (Some (earlier ++ u :: later))))
  = uploadAssets env outputPath
                 (Some (Assets.mk textEncoding (Some (earlier ++ later)))).
Proof.
  intros Hshadow. unfold uploadAssets, buildFileOptions, userFileOptions.
  cbn [Assets.fileOptions].
  assert (E1 : rev ([catchAll; jsCssRule] ++ earlier ++ u :: later)
               = rev later ++ u :: rev ([catchAll; jsCssRule] ++ earlier)).
  { rewrite app_assoc, rev_app_distr. cbn [rev].
    now rewrite <- app_assoc. }
  assert (E2 : rev ([catchAll; jsCssRule] ++ earlier ++ later)
               = rev later ++ rev ([catchAll; jsCssRule] ++ earlier))
    by now rewrite app_assoc, rev_app_distr.
  rewrite E1, E2.
  apply uploadLoop_shadowed. intros f Hf. right.
  destruct (Hshadow f Hf) as (o & Ho & Hm).
  exists o. split; [now apply in_rev in Ho | assumption].
Qed.

Lemma X7_shadowed_user_rule_is_inert_witness :
  uploadAssets Example.env0 "dist" Example.twoHtmlRules
  = uploadAssets Example.env0 "dist" Sample.onlyShortRule.
Proof.
  apply (X7_shadowed_user_rule_is_inert
           Example.env0 "dist" None [] [Example.htmlShort] Example.htmlBare).
  intros f Hf. exists Example.htmlShort. split; [now left | exact Hf].
Defined.

(** ** The invalidation request *)

(** X8. An explicit, non-empty array of paths and an explicit [wait] reach
    the request unchanged; only a missing [wait] is replaced, by [false]. *)
Theorem X8_explicit_invalidation_passes_through (env : Env)
        (outputPath : string) (w : option bool) (ps : list string)
        (r : DistributionInvalidation.t) :
  createDistributionInvalidation
    env outputPath
    (Some (Invalidation.Config (Invalidation.mk w (Some (GlobPaths ps)))))
  = Ok (Some r) ->
  ps <> []
  /\ DistributionInvalidation.paths r = ps
  /\ DistributionInvalidation.wait r
     = match w with Some b => b | None => false end.
Proof.
  unfold createDistributionInvalidation. simpl.
  destruct ps as [|p ps]; simpl; [discriminate|].
  destruct (hashFiles env outputPath (versionFiles env outputPath) [])
    as [h|e]; simpl; [|discriminate].
  intros H. injection H as <-. simpl.
  split; [discriminate|]. split; reflexivity.
Qed.

Lemma X8_explicit_invalidation_passes_through_witness :
  exists r,
    createDistributionInvalidation Example.env0 "dist" Sample.explicitPaths
    = Ok (Some r)
    /\ DistributionInvalidation.paths r = ["/index.html"; "/products/*"]
    /\ DistributionInvalidation.wait r = true.
Proof.
  destruct (createDistributionInvalidation
              Example.env0 "dist" Sample.explicitPaths)
    as [[r|]|e] eqn:H; try (vm_compute in H; discriminate).
  exists r. split; [reflexivity|].
  exact (proj2 (X8_explicit_invalidation_passes_through
                  Example.env0 "dist" (Some true)
                  ["/index.html"; "/products/*"] r H)).
Defined.

(** X9. The version of a request does not depend on the invalidation
    argument: over one output directory, any two arguments for which a
    request is created give the same version. *)
Theorem X9_version_independent_of_config (env : Env) (outputPath : string)
        (raw1 raw2 : option Invalidation.t)
        (r1 r2 : DistributionInvalidation.t) :
  createDistributionInvalidation env outputPath raw1 = Ok (Some r1) ->
  createDistributionInvalidation env outputPath raw2 = Ok (Some r2) ->
  DistributionInvalidation.version r1 = DistributionInvalidation.version r2.
Proof.
  intros H1 H2.
  assert (Hne : forall raw r,
             createDistributionInvalidation env outputPath raw = Ok (Some r) ->
             ~ disabledOrEmpty raw).
  { intros raw r H Hd.
    apply (proj2 (createDistributionInvalidation_skips env outputPath raw))
      in Hd.
    rewrite Hd in H. discriminate. }
  rewrite (createDistributionInvalidation_proceeds _ _ _ (Hne _ _ H1)) in H1.
  rewrite (createDistributionInvalidation_proceeds _ _ _ (Hne _ _ H2)) in H2.
  destruct (hashFiles env outputPath (versionFiles env outputPath) [])
    as [h|e]; simpl in H1, H2; [|discriminate].
  injection H1 as <-. injection H2 as <-. reflexivity.
Qed.

Lemma X9_version_independent_of_config_witness :
  exists r1 r2,
    createDistributionInvalidation Example.env0 "dist" None = Ok (Some r1)
    /\ createDistributionInvalidation
         Example.env0 "dist" Sample.explicitPaths = Ok (Some r2)
    /\ DistributionInvalidation.paths r1 <> DistributionInvalidation.paths r2
    /\ DistributionInvalidation.version r1
       = DistributionInvalidation.version r2.
Proof.
  destruct (createDistributionInvalidation Example.env0 "dist" None)
    as [[r1|]|e1] eqn:H1; try (vm_compute in H1; discriminate).
  destruct (createDistributionInvalidation
              Example.env0 "dist" Sample.explicitPaths)
    as [[r2|]|e2] eqn:H2; try (vm_compute in H2; discriminate).
  exists r1, r2. split; [reflexivity|]. split; [reflexivity|]. split.
  - pose proof H1 as H1'. pose proof H2 as H2'.
    vm_compute in H1', H2'. injection H1' as <-. injection H2' as <-.
    simpl. discriminate.
  - exact (X9_version_independent_of_config
             Example.env0 "dist" None Sample.explicitPaths r1 r2 H1 H2).
Defined.

(** X10. An output directory in which glob finds no file still gets a
    request, unless the argument is [false] or its paths are empty; its
    version is the MD5 of the empty input. *)
Theorem X10_empty_directory_version (env : Env) (outputPath : string)
        (raw : option Invalidation.t) :
  versionFiles env outputPath = [] ->
  ~ disabledOrEmpty raw ->
  exists r,
    createDistributionInvalidation env outputPath raw = Ok (Some r)
    /\ DistributionInvalidation.version r
       = "d41d8cd98f00b204e9800998ecf8427e".
Proof.
  intros Hempty Hne.
  rewrite (createDistributionInvalidation_proceeds _ _ _ Hne), Hempty.
  simpl. eexists. split; [reflexivity|]. simpl. exact md5_empty.
Qed.

Lemma X10_empty_directory_version_witness :
  exists r,
    createDistributionInvalidation (Example.env false []) "dist" None
    = Ok (Some r)
    /\ DistributionInvalidation.version r
       = "d41d8cd98f00b204e9800998ecf8427e".
Proof.
  apply (X10_empty_directory_version (Example.env false []) "dist" None);
    [reflexivity | intros [H|(c & H & _)]; discriminate].
Defined.

(** X11. Only the concatenation of the file contents reaches the hash:
    where one file ends and the next begins, and empty files, leave no
    trace. Two directories whose contents, concatenated in enumeration
    order, are the same bytes get the same request. *)
Theorem X11_version_ignores_file_boundaries (env1 env2 : Env)
        (outputPath1 outputPath2 : string)
        (contents1 contents2 : list (list byte))
        (raw : option Invalidation.t) (r : DistributionInvalidation.t) :
  versionContents env1 outputPath1 = map Some contents1 ->
  versionContents env2 outputPath2 = map Some contents2 ->
  List.concat contents1 = List.concat contents2 ->
  createDistributionInvalidation env1 outputPath1 raw = Ok (Some r) ->
  createDistributionInvalidation env2 outputPath2 raw = Ok (Some r).
Proof.
  intros Hc1 Hc2 Hsame H1.
  assert (Hne : ~ disabledOrEmpty raw).
  { intros Hd.
    apply (proj2 (createDistributionInvalidation_skips env1 outputPath1 raw))
      in Hd.
    rewrite Hd in H1. discriminate. }
  rewrite (createDistributionInvalidation_proceeds _ _ _ Hne) in H1.
  rewrite (createDistributionInvalidation_proceeds _ _ _ Hne).
  assert (Hh : forall env outputPath contents,
             versionContents env outputPath = map Some contents ->
             hashFiles env outputPath (versionFiles env outputPath) []
             = Ok (List.concat contents)).
  { intros env outputPath contents Hc.
    apply hashFiles_hashContents.
    fold (versionContents env outputPath).
    apply hashContents_concat. now exists contents. }
  rewrite (Hh _ _ _ Hc1) in H1. rewrite (Hh _ _ _ Hc2).
  now rewrite <- Hsame.
Qed.

Lemma X11_version_ignores_file_boundaries_witness :
  exists r,
    createDistributionInvalidation
      (Example.env false Sample.cutOnce) "dist" None = Ok (Some r)
    /\ createDistributionInvalidation
         (Example.env false Sample.cutTwice) "dist" None = Ok (Some r).
Proof.
  destruct (createDistributionInvalidation
              (Example.env false Sample.cutOnce) "dist" None)
    as [[r|]|e] eqn:H; try (vm_compute in H; discriminate).
  exists r. split; [reflexivity|].
  apply (X11_version_ignores_file_boundaries
           (Example.env false Sample.cutOnce)
           (Example.env false Sample.cutTwice) "dist" "dist"
           [list_byte_of_string "ab"; list_byte_of_string "c"]
           [list_byte_of_string "a"; list_byte_of_string "";
            list_byte_of_string "bc"]
           None r);
    [reflexivity | reflexivity | reflexivity | exact H].
Defined.

(** X12. [createDistributionInvalidation] throws exactly when it gets past
    its two early returns and one of the files glob enumerates cannot be
    read: with the argument [false] or empty paths, no file is read and
    nothing is thrown. *)
Theorem X12_invalidation_throws_iff (env : Env) (outputPath : string)
        (raw : option Invalidation.t) :
  (exists e, createDistributionInvalidation env outputPath raw = Throw e)
  <-> ~ disabledOrEmpty raw
      /\ exists f,
          In f (versionFiles env outputPath)
          /\ readFile env (resolve env [outputPath; f]) = None.
Proof.
  split.
  - intros [e H].
    assert (Hne : ~ disabledOrEmpty raw).
    { intros Hd.
      apply (proj2 (createDistributionInvalidation_skips env outputPath raw))
        in Hd.
      rewrite Hd in H. discriminate. }
    split; [assumption|].
    rewrite (createDistributionInvalidation_proceeds _ _ _ Hne) in H.
    apply (proj1 (hashFiles_Throw env outputPath
                                  (versionFiles env outputPath) [])).
    destruct (hashFiles env outputPath (versionFiles env outputPath) [])
      as [h|e']; simpl in H; [discriminate | now exists e'].
  - intros [Hne Hf].
    rewrite (createDistributionInvalidation_proceeds _ _ _ Hne).
    apply (proj2 (hashFiles_Throw env outputPath
                                  (versionFiles env outputPath) [])) in Hf.
    destruct Hf as [e He]. rewrite He. now exists e.
Qed.

(** ** Site path and build *)

(** X13. Outside dev mode [buildApp] returns a directory exactly when the
    build command it has to run, if any, succeeds and the directory
    [buildOutput ?? sitePath] exists, and that directory is what it
    returns. *)
Theorem X13_buildApp_returns_iff (env : Env) (name sitePath : string)
        (args : StaticSiteArgs.t) (outputPath : string) :
  dev env = false ->
  (buildApp env name sitePath args = Ok outputPath
   <-> outputPath = outputRoot args sitePath
       /\ existsSync env outputPath = true
       /\ forall buildCommand,
           buildToRun env args = Some buildCommand ->
           execSync env buildCommand sitePath = true).
Proof.
  intros Hdev. unfold buildApp, buildToRun. rewrite Hdev.
  fold (outputRoot args sitePath).
  destruct (StaticSiteArgs.buildCommand args) as [cmd|]; cbn [bind negb].
  - destruct (truthy (Some cmd) && negb (envSKIP env)); cbn [bind negb].
    + destruct (execSync env cmd sitePath) eqn:Hexec; cbn [bind negb].
      * destruct (existsSync env (outputRoot args sitePath)) eqn:Hex; cbn [bind negb].
        -- split.
           ++ intros H. injection H as <-. repeat split; try assumption.
              intros c Hc. now injection Hc as <-.
           ++ intros (-> & _ & _). reflexivity.
        -- split; [discriminate|]. intros (-> & H & _). congruence.
      * split; [discriminate|]. intros (_ & _ & H).
        specialize (H cmd eq_refl). congruence.
    + destruct (existsSync env (outputRoot args sitePath)) eqn:Hex; cbn [bind negb].
      * split.
        -- intros H. injection H as <-. repeat split; try assumption.
           intros c Hc. discriminate.
        -- intros (-> & _ & _). reflexivity.
      * split; [discriminate|]. intros (-> & H & _). congruence.
  - destruct (existsSync env (outputRoot args sitePath)) eqn:Hex; cbn [bind negb].
    + split.
      * intros H. injection H as <-. repeat split; try assumption.
        intros c Hc. discriminate.
      * intros (-> & _ & _). reflexivity.
    + split; [discriminate|]. intros (-> & H & _). congruence.
Qed.

Lemma X13_buildApp_returns_iff_witness :
  buildApp Example.env0 "Web" "." (Example.args None None) = Ok "dist".
Proof.
  apply (proj2 (X13_buildApp_returns_iff
                  Example.env0 "Web" "." (Example.args None None) "dist"
                  eq_refl)).
  split; [reflexivity|]. split; [reflexivity|].
  intros buildCommand H. discriminate.
Defined.

(** X14. Outside dev mode, a build command that is run and fails makes
    [buildApp] throw the build error that names the site, whether or not
    an output directory exists. *)
Theorem X14_build_failure_reported_first (env : Env) (name sitePath : string)
        (args : StaticSiteArgs.t) (buildCommand : string) :
  dev env = false ->
  buildToRun env args = Some buildCommand ->
  execSync env buildCommand sitePath = false ->
  buildApp env name sitePath args
  = Throw (VisibleError
             ("There was a problem building the " ^^ quoted name ^^ " site.")).
Proof.
  intros Hdev Hrun Hfail. unfold buildApp, buildToRun in *. rewrite Hdev.
  destruct (StaticSiteArgs.buildCommand args) as [cmd|]; [|discriminate].
  destruct (truthy (Some cmd) && negb (envSKIP env)); [|discriminate].
  injection Hrun as ->. rewrite Hfail. reflexivity.
Qed.

Lemma X14_build_failure_reported_first_witness :
  existsSync Sample.brokenBuild "dist" = true
  /\ buildApp Sample.brokenBuild "Web" "." Sample.buildArgs
     = Throw (VisibleError
                ("There was a problem building the "
                   ^^ quoted "Web" ^^ " site.")).
Proof.
  split; [reflexivity|].
  apply (X14_build_failure_reported_first
           Sample.brokenBuild "Web" "." Sample.buildArgs "npm run build");
    reflexivity.
Defined.

Lemma normalizeSitePath_Ok (env : Env) (args : StaticSiteArgs.t)
      (sitePath : string) :
  normalizeSitePath env args = Ok sitePath ->
  sitePath = "."
  \/ StaticSiteArgs.path args = Some sitePath
     /\ existsSync env sitePath = true.
Proof.
  unfold normalizeSitePath.
  destruct (StaticSiteArgs.path args) as [p|]; [|intros H; left; congruence].
  destruct (negb (truthy (Some p))); [intros H; left; congruence|].
  destruct (existsSync env p) eqn:Hex; simpl; [|discriminate].
  intros H. injection H as <-. right. now split.
Qed.

(** X15. Outside dev mode a plan is produced only after every check has
    passed: the site path is the default ["."] or a given path that exists,
    the build command that had to run succeeded, the output directory
    [buildOutput ?? sitePath] exists, and the plan is the plan of that
    directory. *)
Theorem X15_plan_only_after_validation (env : Env) (name : string)
        (args : StaticSiteArgs.t) (plan : list BucketFile.t) :
  dev env = false ->
  assetFiles env name args = Ok plan ->
  exists sitePath,
    (sitePath = "."
     \/ StaticSiteArgs.path args = Some sitePath
        /\ existsSync env sitePath = true)
    /\ (forall buildCommand,
           buildToRun env args = Some buildCommand ->
           execSync env buildCommand sitePath = true)
    /\ existsSync env (outputRoot args sitePath) = true
    /\ uploadAssets env (outputRoot args sitePath)
                    (StaticSiteArgs.assets args) = Ok plan.
Proof.
  intros Hdev H. unfold assetFiles, outputPathOf in H.
  destruct (normalizeSitePath env args) as [sitePath|e] eqn:Hsite;
    cbn [bind] in H; [|discriminate].
  destruct (buildApp env name sitePath args) as [outputPath|e] eqn:Hbuild;
    cbn [bind] in H; [|discriminate].
  apply normalizeSitePath_Ok in Hsite.
  unfold buildApp, buildToRun in *. rewrite Hdev in Hbuild.
  fold (outputRoot args sitePath) in Hbuild.
  exists sitePath. split; [assumption|].
  destruct (StaticSiteArgs.buildCommand args) as [cmd|].
  - destruct (truthy (Some cmd) && negb (envSKIP env)).
    + destruct (execSync env cmd sitePath) eqn:Hexec; cbn [bind] in Hbuild;
        [|discriminate].
      destruct (existsSync env (outputRoot args sitePath)) eqn:Hex;
        cbn [negb] in Hbuild; [|discriminate].
      injection Hbuild as <-. split; [|split; [reflexivity | assumption]].
      intros c Hc. now injection Hc as <-.
    + cbn [bind] in Hbuild.
      destruct (existsSync env (outputRoot args sitePath)) eqn:Hex;
        cbn [negb] in Hbuild; [|discriminate].
      injection Hbuild as <-. split; [|split; [reflexivity | assumption]].
      intros c Hc. discriminate.
  - cbn [bind] in Hbuild.
    destruct (existsSync env (outputRoot args sitePath)) eqn:Hex;
      cbn [negb] in Hbuild; [|discriminate].
    injection Hbuild as <-. split; [|split; [reflexivity | assumption]].
    intros c Hc. discriminate.
Qed.

Lemma X15_plan_only_after_validation_witness :
  exists plan,
    assetFiles Example.env0 "Web" (Example.args None None) = Ok plan
    /\ existsSync Example.env0 "dist" = true
    /\ uploadAssets Example.env0 "dist" None = Ok plan.
Proof.
  destruct (assetFiles Example.env0 "Web" (Example.args None None))
    as [plan|e] eqn:H; [|vm_compute in H; discriminate].
  exists plan. split; [reflexivity|].
  destruct (X15_plan_only_after_validation
              Example.env0 "Web" (Example.args None None) plan eq_refl H)
    as (sitePath & _ & _ & Hex & Hplan).
  split; [exact Hex | exact Hplan].
Defined.

(** ** Content types by file name *)

Lemma length_append (a b : string) :
  String.length (a ^^ b) = String.length a + String.length b.
Proof. induction a as [|c a IH]; simpl; [reflexivity | now rewrite IH]. Qed.

Lemma substring_whole (s : string) : substring 0 (String.length s) s = s.
Proof. induction s as [|c s IH]; simpl; [reflexivity | now rewrite IH]. Qed.

Lemma substring_after (a b : string) (m : nat) :
  substring (String.length a) m (a ^^ b) = substring 0 m b.
Proof. induction a as [|c a IH]; simpl; [reflexivity | exact IH]. Qed.

Lemma endsWith_append (a b : string) : Js.endsWith (a ^^ b) b = true.
Proof.
  unfold Js.endsWith. rewrite length_append.
  replace (String.length a + String.length b - String.length b)
    with (String.length a) by lia.
  rewrite substring_after, substring_whole, String.eqb_refl.
  rewrite andb_true_r. apply Nat.leb_le. lia.
Qed.

(** What [endsWith] says about the characters of the string. *)
Lemma endsWith_get (s suffix : string) (p : nat) :
  Js.endsWith s suffix = true ->
  p < String.length suffix ->
  String.length suffix <= String.length s
  /\ String.get p suffix
     = String.get (p + (String.length s - String.length suffix)) s.
Proof.
  unfold Js.endsWith. intros H Hp.
  apply andb_true_iff in H. destruct H as [Hle Heq].
  apply Nat.leb_le in Hle. apply String.eqb_eq in Heq.
  split; [assumption|].
  rewrite <- Heq at 1. now apply substring_correct1.
Qed.

Lemma get_Some_lt (s : string) :
  forall i, i < String.length s -> exists ch, String.get i s = Some ch.
Proof.
  induction s as [|c s IH]; simpl; intros i Hi; [lia|].
  destruct i as [|i]; [now exists c|]. apply IH. lia.
Qed.

Lemma plain_get (s : string) :
  plain s = true ->
  forall i ch,
    String.get i s = Some ch ->
    ch <> Path.CHAR_DOT /\ ch <> Path.CHAR_FORWARD_SLASH.
Proof.
  induction s as [|c s IH]; simpl; intros Hp i ch Hget; [discriminate|].
  apply andb_true_iff in Hp. destruct Hp as [Hc Hs].
  apply andb_true_iff in Hc. destruct Hc as [Hdot Hslash].
  apply negb_true_iff in Hdot, Hslash.
  destruct i as [|i].
  - injection Hget as <-. split; now apply Ascii.eqb_neq.
  - exact (IH Hs i ch Hget).
Qed.

(** Every key of the extension table is a dot followed by a non-empty
    string without dot and slash. *)
Lemma extensions_key_shape (ext : string) (d : ExtensionData) :
  lookup extensions ext = Some d ->
  exists body,
    ext = String Path.CHAR_DOT body /\ plain body = true /\ body <> "".
Proof.
  unfold extensions, lookup.
  repeat match goal with
         | [ |- (if String.eqb ?k ext then _ else _) = _ -> _ ] =>
             destruct (String.eqb_spec k ext) as [<-|_];
             [intros _; eexists; split; [reflexivity|];
              split; [reflexivity | discriminate]|]
         end.
  discriminate.
Qed.

(** *** [getContentType] on a name without a dot *)

Lemma ext_loop_no_dot (path : string) :
  (forall i, String.get i path <> Some Path.CHAR_DOT) ->
  forall n st,
    Path.startDot st = (-1)%Z ->
    Path.startDot (Path.ext_loop path n st) = (-1)%Z.
Proof.
  intros Hnodot. induction n as [|i IH]; intros st Hsd; simpl; [assumption|].
  destruct (String.get i path) as [code|] eqn:Hget; [|assumption].
  unfold Path.ext_step. destruct st as [sd sp en ms pd]. simpl in *.
  subst sd.
  destruct (Ascii.eqb code Path.CHAR_FORWARD_SLASH).
  - destruct ms; simpl; [|reflexivity]. now apply IH.
  - destruct (Ascii.eqb code Path.CHAR_DOT) eqn:Hcode.
    + apply Ascii.eqb_eq in Hcode. subst code.
      exfalso. exact (Hnodot i Hget).
    + destruct (en =? -1)%Z; simpl; now apply IH.
Qed.

(** X16. A file whose path contains no dot at all gets
    [application/octet-stream], without charset, for every text
    encoding. *)
Theorem X16_no_dot_is_octet_stream (filename textEncoding : string) :
  (forall i, String.get i filename <> Some Path.CHAR_DOT) ->
  getContentType filename textEncoding = "application/octet-stream".
Proof.
  intros Hnodot.
  assert (Hext : contentTypeExt filename = "").
  { unfold contentTypeExt.
    destruct (Js.endsWith filename ".well-known/site-association-json")
      eqn:Hends.
    - exfalso.
      destruct (endsWith_get filename ".well-known/site-association-json" 0
                             Hends) as [_ Hget]; [simpl; lia|].
      simpl in Hget. symmetry in Hget. exact (Hnodot _ Hget).
    - unfold Path.extname.
      pose proof (ext_loop_no_dot filename Hnodot (String.length filename)
                                  Path.ext_init eq_refl) as Hsd.
      destruct (Path.ext_loop filename (String.length filename)
                              Path.ext_init) as [sd sp en ms pd].
      simpl in *. subst sd. reflexivity. }
  unfold getContentType. rewrite Hext. reflexivity.
Qed.

Lemma X16_no_dot_is_octet_stream_witness :
  getContentType "bin/LICENSE" "utf-8" = "application/octet-stream".
Proof.
  apply (X16_no_dot_is_octet_stream "bin/LICENSE" "utf-8").
  intros i. do 12 (destruct i as [|i]; [simpl; discriminate|]).
  simpl. discriminate.
Defined.

(** X17. Every path that ends with the marker
    [.well-known/site-association-json] is served as JSON, with the
    charset unless the encoding is ["none"], whatever precedes the
    marker. *)
Theorem X17_site_association_is_json (before textEncoding : string) :
  getContentType (before ^^ siteAssociation) textEncoding
  = if String.eqb textEncoding "none"
    then "application/json"
    else "application/json;charset=" ^^ textEncoding.
Proof.
  unfold getContentType, contentTypeExt, siteAssociation.
  rewrite endsWith_append. cbn [lookup extensions String.eqb Ascii.eqb
                                Bool.eqb mime isText andb].
  destruct (String.eqb textEncoding "none"); reflexivity.
Qed.

(** *** [getContentType] on a name with a known extension *)

Lemma get_stem_char (stem rest : string) (c : ascii) :
  String.get (String.length stem) (stem ^^ String c rest) = Some c.
Proof. induction stem as [|a stem IH]; simpl; [reflexivity | exact IH]. Qed.

Lemma get_stem_next (stem rest : string) (c d : ascii) :
  String.get (S (String.length stem)) (stem ^^ String c (String d rest))
  = Some d.
Proof. induction stem as [|a stem IH]; simpl; [reflexivity | exact IH]. Qed.

Lemma get_stem_rest (stem rest : string) (c d : ascii) (j : nat) :
  String.get (String.length stem + 2 + j)
             (stem ^^ String c (String d rest))
  = String.get j rest.
Proof. induction stem as [|a stem IH]; simpl; [reflexivity | exact IH]. Qed.

Lemma substring_stem_rest (stem rest : string) (c : ascii) :
  substring (S (String.length stem)) (String.length rest)
            (stem ^^ String c rest) = rest.
Proof.
  induction stem as [|a stem IH]; simpl; [apply substring_whole | exact IH].
Qed.

Ltac eqb_facts :=
  repeat match goal with
         | [ H : (_ =? _)%Z = true |- _ ] => apply Z.eqb_eq in H
         | [ H : (_ =? _)%Z = false |- _ ] => apply Z.eqb_neq in H
         | [ H : Ascii.eqb _ _ = true |- _ ] => apply Ascii.eqb_eq in H
         | [ H : Ascii.eqb _ _ = false |- _ ] => apply Ascii.eqb_neq in H
         end.

Section OrdinaryName.

Variables stem body : string.
Variable c : ascii.
Hypothesis c_not_dot : c <> Path.CHAR_DOT.
Hypothesis c_not_slash : c <> Path.CHAR_FORWARD_SLASH.
Hypothesis body_plain : plain body = true.
Hypothesis body_nonempty : body <> "".

Abbreviation name := (stem ^^ String c (String Path.CHAR_DOT body)).
Abbreviation L := (String.length stem).
Abbreviation N := (String.length stem + 2 + String.length body).

Lemma body_length_pos : 1 <= String.length body.
Proof. destruct body; [contradiction | simpl; lia]. Qed.

Lemma name_length : String.length name = N.
Proof. rewrite length_append. simpl. lia. Qed.

Lemma ext_loop_ordinary :
  forall n st,
    n <= N -> ext_scan_inv L N n st ->
    ext_scan_done L N (Path.ext_loop name n st).
Proof.
  pose proof body_length_pos as HK.
  induction n as [|i IH]; intros st Hn Hinv.
  - apply Hinv. lia.
  - simpl.
    destruct (get_Some_lt name i) as [code Hget];
      [rewrite name_length; lia|].
    rewrite Hget.
    assert (Hcode :
              (L + 2 <= i -> code <> Path.CHAR_DOT
                             /\ code <> Path.CHAR_FORWARD_SLASH)
              /\ (i = L + 1 -> code = Path.CHAR_DOT)
              /\ (i = L -> code = c)).
    { split; [|split].
      - intros Hi. replace i with (L + 2 + (i - (L + 2))) in Hget by lia.
        rewrite get_stem_rest in Hget.
        exact (plain_get body body_plain _ _ Hget).
      - intros ->. replace (L + 1) with (S L) in Hget by lia.
        rewrite get_stem_next in Hget. congruence.
      - intros ->. rewrite get_stem_char in Hget. congruence. }
    destruct Hcode as (Hbody & Hdot & Hc).
    unfold Path.ext_step.
    destruct st as [sd sp en ms pd].
    unfold ext_scan_inv, ext_scan_done in Hinv. simpl in Hinv.
    destruct Hinv as (HA & HB & HC).
    cbn [Path.startDot Path.startPart Path.end_ Path.matchedSlash
         Path.preDotState].
    assert (Hcases : L + 2 <= i \/ i = L + 1 \/ i = L \/ i < L) by lia.
    destruct Hcases as [Hi|[Hi|[Hi|Hi]]].
    + destruct (Hbody Hi) as [Hnd Hns].
      rewrite (proj2 (Ascii.eqb_neq _ _) Hns), (proj2 (Ascii.eqb_neq _ _) Hnd).
      destruct (en =? -1)%Z eqn:Hen;
        cbn [Path.startDot Path.startPart Path.end_ Path.matchedSlash
             Path.preDotState];
        destruct (sd =? -1)%Z eqn:Hsd; cbn [negb]; eqb_facts;
        first [ exfalso; lia
              | apply IH; [lia|];
                unfold ext_scan_inv, ext_scan_done; simpl;
                repeat split; intros; lia ].
    + rewrite (Hdot Hi).
      change (Ascii.eqb Path.CHAR_DOT Path.CHAR_FORWARD_SLASH) with false.
      change (Ascii.eqb Path.CHAR_DOT Path.CHAR_DOT) with true.
      cbv iota.
      destruct (en =? -1)%Z eqn:Hen;
        cbn [Path.startDot Path.startPart Path.end_ Path.matchedSlash
             Path.preDotState];
        destruct (sd =? -1)%Z eqn:Hsd; cbn [negb]; eqb_facts;
        first [ exfalso; lia
              | apply IH; [lia|];
                unfold ext_scan_inv, ext_scan_done; simpl;
                repeat split; intros; lia ].
    + rewrite (Hc Hi).
      rewrite (proj2 (Ascii.eqb_neq _ _) c_not_slash),
              (proj2 (Ascii.eqb_neq _ _) c_not_dot).
      destruct (en =? -1)%Z eqn:Hen;
        cbn [Path.startDot Path.startPart Path.end_ Path.matchedSlash
             Path.preDotState];
        destruct (sd =? -1)%Z eqn:Hsd; cbn [negb]; eqb_facts;
        first [ exfalso; lia
              | apply IH; [lia|];
                unfold ext_scan_inv, ext_scan_done; simpl;
                repeat split; intros; lia ].
    + destruct (Ascii.eqb code Path.CHAR_FORWARD_SLASH);
        [ destruct ms; cbn [negb];
          [ apply IH; [lia|];
            unfold ext_scan_inv, ext_scan_done; simpl;
            repeat split; intros; lia
          | unfold ext_scan_done; simpl; lia ]
        | ].
      destruct (Ascii.eqb code Path.CHAR_DOT);
        destruct (en =? -1)%Z eqn:Hen;
        cbn [Path.startDot Path.startPart Path.end_ Path.matchedSlash
             Path.preDotState];
        destruct (sd =? -1)%Z eqn:Hsd; cbn [negb];
        try destruct (pd =? 1)%Z eqn:Hpd;
        cbn [negb Path.startDot Path.startPart Path.end_ Path.matchedSlash
             Path.preDotState];
        eqb_facts;
        first [ exfalso; lia
              | apply IH; [lia|];
                unfold ext_scan_inv, ext_scan_done; simpl;
                repeat split; intros; lia ].
Qed.

Lemma extname_ordinary : Path.extname name = String Path.CHAR_DOT body.
Proof.
  pose proof body_length_pos as HK.
  unfold Path.extname. rewrite name_length.
  assert (Hinit : ext_scan_inv L N N Path.ext_init).
  { unfold ext_scan_inv, ext_scan_done. simpl. repeat split; intros; lia. }
  pose proof (ext_loop_ordinary N Path.ext_init (le_n _) Hinit) as Hdone.
  destruct (Path.ext_loop name N Path.ext_init) as [sd sp en ms pd].
  unfold ext_scan_done in Hdone. simpl in *.
  destruct Hdone as (-> & -> & Hpd).
  destruct (Z.of_nat (L + 1) =? -1)%Z eqn:E1; [apply Z.eqb_eq in E1; lia|].
  destruct (Z.of_nat N =? -1)%Z eqn:E2; [apply Z.eqb_eq in E2; lia|].
  destruct (pd =? 0)%Z eqn:E3; [apply Z.eqb_eq in E3; lia|].
  destruct (Z.of_nat (L + 1) =? Z.of_nat N - 1)%Z eqn:E4;
    [apply Z.eqb_eq in E4; lia|].
  rewrite andb_false_r. simpl.
  replace (Z.to_nat (Z.of_nat (L + 1))) with (S L) by lia.
  replace (Z.to_nat (Z.of_nat N - Z.of_nat (L + 1)))
    with (String.length (String Path.CHAR_DOT body)) by (simpl; lia).
  apply substring_stem_rest.
Qed.

Lemma siteAssociation_inner_plain (p : nat) :
  1 <= p < 33 -> String.get p siteAssociation <> Some Path.CHAR_DOT.
Proof.
  intros Hp.
  do 33 (destruct p as [|p];
         [first [exfalso; lia | simpl; discriminate]|]).
  exfalso. lia.
Qed.

Lemma ordinary_not_siteAssociation :
  Js.endsWith name siteAssociation = false.
Proof.
  pose proof body_length_pos as HK.
  destruct (Js.endsWith name siteAssociation) eqn:Hends; [|reflexivity].
  exfalso.
  destruct (le_lt_dec (String.length body) 31) as [Hshort|Hlong].
  - destruct (endsWith_get name siteAssociation
                           (32 - String.length body) Hends)
      as [Hlen Hget];
      [change (String.length siteAssociation) with 33; lia|].
    rewrite name_length in Hlen, Hget.
    change (String.length siteAssociation) with 33 in Hlen, Hget.
    replace (32 - String.length body + (N - 33)) with (S L) in Hget by lia.
    rewrite get_stem_next in Hget.
    apply (siteAssociation_inner_plain (32 - String.length body));
      [lia | exact Hget].
  - destruct (endsWith_get name siteAssociation 11 Hends)
      as [Hlen Hget];
      [change (String.length siteAssociation) with 33; lia|].
    rewrite name_length in Hlen, Hget.
    change (String.length siteAssociation) with 33 in Hlen, Hget.
    replace (11 + (N - 33)) with (L + 2 + (String.length body - 22))
      in Hget by lia.
    rewrite get_stem_rest in Hget. simpl in Hget. symmetry in Hget.
    destruct (plain_get body body_plain _ _ Hget) as [_ Hns].
    now apply Hns.
Qed.

Lemma contentTypeExt_ordinary :
  contentTypeExt name = String Path.CHAR_DOT body.
Proof.
  unfold contentTypeExt.
  change ".well-known/site-association-json" with siteAssociation.
  rewrite ordinary_not_siteAssociation. apply extname_ordinary.
Qed.

End OrdinaryName.

(** X18. A file name that ends with a key of the extension table,
    preceded by a character that is neither a dot nor a slash, gets the
    MIME type of that key, with the charset suffix when the entry is text
    and the encoding is not ["none"]; directories and further dots earlier
    in the path make no difference. *)
Theorem X18_known_extension (stem : string) (c : ascii) (ext : string)
        (d : ExtensionData) (textEncoding : string) :
  lookup extensions ext = Some d ->
  c <> Path.CHAR_DOT ->
  c <> Path.CHAR_FORWARD_SLASH ->
  getContentType (stem ^^ String c ext) textEncoding
  = mime d ^^ charsetOf d textEncoding.
Proof.
  intros Hd Hdot Hslash.
  destruct (extensions_key_shape ext d Hd) as (body & -> & Hplain & Hne).
  unfold getContentType.
  rewrite (contentTypeExt_ordinary stem body c Hdot Hslash Hplain Hne), Hd.
  reflexivity.
Qed.

Lemma X18_known_extension_witness :
  getContentType "assets/v1.2/app.min.js" "utf-8"
  = "text/javascript;charset=utf-8"
  /\ getContentType "img/logo.png" "utf-8" = "image/png".
Proof.
  split.
  - exact (X18_known_extension
             "assets/v1.2/app.mi" "n" ".js"
             (mkExtData "text/javascript" true) "utf-8"
             eq_refl ltac:(discriminate) ltac:(discriminate)).
  - exact (X18_known_extension
             "img/log" "o" ".png" (mkExtData "image/png" false) "utf-8"
             eq_refl ltac:(discriminate) ltac:(discriminate)).
Defined.

(** ** The plan and the order of enumeration *)

Lemma mapM_Permutation {A B : Type} (f : A -> result B) (xs ys : list A) :
  Permutation xs ys ->
  forall rs,
    mapM f xs = Ok rs ->
    exists rs', mapM f ys = Ok rs' /\ Permutation rs rs'.
Proof.
  induction 1 as [|x l l' _ IH|x y l|l l' l'' _ IH1 _ IH2]; intros rs H.
  - exists rs. split; [assumption | apply Permutation_refl].
  - simpl in *. destruct (f x) as [b|e]; simpl in *; [|discriminate].
    destruct (mapM f l) as [bs|e]; simpl in *; [|discriminate].
    injection H as <-. destruct (IH bs eq_refl) as (bs' & -> & Hperm).
    exists (b :: bs'). split; [reflexivity | now constructor].
  - simpl in *. destruct (f y) as [b|e]; simpl in *; [|discriminate].
    destruct (f x) as [a|e]; simpl in *; [|discriminate].
    destruct (mapM f l) as [bs|e]; simpl in *; [|discriminate].
    injection H as <-. exists (a :: b :: bs).
    split; [reflexivity | apply perm_swap].
  - destruct (IH1 rs H) as (rs' & H' & Hp1).
    destruct (IH2 rs' H') as (rs'' & H'' & Hp2).
    exists rs''. split; [assumption | now apply perm_trans with rs'].
Qed.

Lemma fresh_Permutation (fu1 fu2 m1 m2 : list string) :
  Permutation fu1 fu2 -> Permutation m1 m2 ->
  Permutation (filter (fun file => negb (Js.includes fu1 file)) m1)
              (filter (fun file => negb (Js.includes fu2 file)) m2).
Proof.
  intros Hfu Hm.
  assert (Hext : forall file,
             negb (Js.includes fu1 file) = negb (Js.includes fu2 file)).
  { intros file. f_equal.
    destruct (Js.includes fu1 file) eqn:H1;
      destruct (Js.includes fu2 file) eqn:H2; try reflexivity.
    - apply includes_true in H1. apply includes_false in H2.
      exfalso. apply H2. now apply (Permutation_in _ Hfu).
    - apply includes_false in H1. apply includes_true in H2.
      exfalso. apply H1. now apply (Permutation_in _ (Permutation_sym Hfu)). }
  rewrite (filter_ext _ _ Hext).
  clear Hext Hfu. induction Hm as [|x l l' _ IH|x y l|l l' l'' _ IH1 _ IH2];
    simpl.
  - constructor.
  - destruct (negb (Js.includes fu2 x)); [now constructor | assumption].
  - destruct (negb (Js.includes fu2 x));
      destruct (negb (Js.includes fu2 y));
      try apply Permutation_refl. apply perm_swap.
  - now apply perm_trans with (filter (fun file => negb (Js.includes fu2 file)) l').
Qed.

Lemma uploadLoop_Permutation (env : Env)
      (walker : StringOrArray -> Glob.Options -> list string)
      (outputPath : string) (opts : list FileOptions.t) :
  (forall o, In o opts ->
             Permutation (matchedFiles env outputPath o)
                         (matchedFiles (withGlob env walker) outputPath o)) ->
  forall bf1 fu1 bf2 fu2 res1,
    Permutation bf1 bf2 -> Permutation fu1 fu2 ->
    uploadLoop env outputPath opts bf1 fu1 = Ok res1 ->
    exists res2,
      uploadLoop (withGlob env walker) outputPath opts bf2 fu2 = Ok res2
      /\ Permutation res1 res2.
Proof.
  induction opts as [|o opts IH]; intros Hglob bf1 fu1 bf2 fu2 res1 Hbf Hfu H;
    cbn [uploadLoop] in *.
  - injection H as <-. now exists bf2.
  - destruct (mapM (bucketFile env outputPath o) _) as [rs1|e] eqn:Hm;
      cbn [bind] in H; [|discriminate].
    pose proof (fresh_Permutation _ _ _ _ Hfu (Hglob o (or_introl eq_refl)))
      as Hfiles.
    destruct (mapM_Permutation _ _ _ Hfiles rs1 Hm) as (rs2 & Hm2 & Hrs).
    change (bucketFile (withGlob env walker) outputPath o)
      with (bucketFile env outputPath o).
    rewrite Hm2. cbn [bind].
    eapply (IH (fun o' Ho' => Hglob o' (or_intror Ho')));
      [ | | exact H]; now apply Permutation_app.
Qed.

(** X19. The plan does not depend on the order in which glob returns the
    files of a rule, up to the order of its records: if another walker
    returns, for every rule, the same files in some other order, it gives
    a plan with the same records. *)
Theorem X19_plan_up_to_enumeration_order (env : Env)
        (walker : StringOrArray -> Glob.Options -> list string)
        (outputPath : string) (assets : option Assets.t)
        (plan : list BucketFile.t) :
  (forall o, In o (buildFileOptions assets) ->
             Permutation (matchedFiles env outputPath o)
                         (matchedFiles (withGlob env walker) outputPath o)) ->
  uploadAssets env outputPath assets = Ok plan ->
  exists plan',
    uploadAssets (withGlob env walker) outputPath assets = Ok plan'
    /\ Permutation plan plan'.
Proof.
  intros Hglob Hplan. unfold uploadAssets in *.
  apply (uploadLoop_Permutation env walker outputPath _
           (fun o Ho => Hglob o (proj2 (in_rev _ _) Ho))
           [] [] [] [] plan);
    [constructor | constructor | assumption].
Qed.

Lemma X19_plan_up_to_enumeration_order_witness :
  map BucketFile.key
      match uploadAssets (Example.env false Example.listingAB) "dist" None
      with Ok plan => plan | Throw _ => [] end
  = ["a.txt"; "b.txt"]
  /\ exists plan plan',
      uploadAssets (Example.env false Example.listingAB) "dist" None
      = Ok plan
      /\ uploadAssets
           (withGlob (Example.env false Example.listingAB)
                     (globSync (Example.env false Example.listingBA)))
           "dist" None = Ok plan'
      /\ Permutation plan plan'.
Proof.
  split; [vm_compute; reflexivity|].
  destruct (uploadAssets (Example.env false Example.listingAB) "dist" None)
    as [plan|e] eqn:Hplan; [|vm_compute in Hplan; discriminate].
  destruct (X19_plan_up_to_enumeration_order
              (Example.env false Example.listingAB)
              (globSync (Example.env false Example.listingBA))
              "dist" None plan) as (plan' & Hplan' & Hperm).
  - intros o [<-|[<-|[]]]; vm_compute; [apply perm_swap | constructor].
  - exact Hplan.
  - exists plan, plan'. repeat split; assumption.
Defined.

(** ** The generated type definitions *)

Lemma append_assoc (a b c : string) : (a ^^ b) ^^ c = a ^^ b ^^ c.
Proof. induction a as [|x a IH]; simpl; [reflexivity | now rewrite IH]. Qed.

Lemma concat_contains (sep line : string) (lines : list string) :
  In line lines ->
  exists before after, String.concat sep lines = before ^^ line ^^ after.
Proof.
  induction lines as [|l lines IH]; simpl; [intros []|].
  intros [->|Hin].
  - destruct lines as [|l' lines].
    + exists "", "". simpl. now rewrite append_empty_r.
    + exists "", (sep ^^ String.concat sep (l' :: lines)). reflexivity.
  - destruct (IH Hin) as (before & after & Heq).
    destruct lines as [|l' lines]; [destruct Hin|].
    exists (l ^^ sep ^^ before), after.
    rewrite Heq. now rewrite !append_assoc.
Qed.

(** X20. [generateViteTypes] touches the file system only when a type
    file is wanted. An explicit non-empty [vite.types] is used as given,
    whether or not a vite config exists. Without one (left out, or the
    empty string) the default [src/sst-env.d.ts] is used when
    [vite.config.js] or [vite.config.ts] exists in the site directory, and
    nothing is created otherwise. What it does is create the directory of
    the file, then write the one file. *)
Theorem X20_vite_types_written_when_wanted (env : Env) (lib : PathLib)
        (sitePath : string) (vite : option Vite.t)
        (environment : Environment) :
  (forall typesPath,
      viteTypesGiven vite = Some typesPath ->
      generateViteTypes env lib sitePath vite environment
      = viteTypesWrites env lib sitePath typesPath environment)
  /\ (viteTypesGiven vite = None ->
      generateViteTypes env lib sitePath vite environment
      = if viteConfigured env lib sitePath
        then viteTypesWrites env lib sitePath "src/sst-env.d.ts" environment
        else []).
Proof.
  unfold generateViteTypes, viteTypesGiven, viteTypesWrites.
  fold (viteConfigured env lib sitePath).
  destruct vite as [[[typesPath|]]|]; simpl.
  - destruct (String.eqb typesPath "") eqn:Hempty; simpl.
    + split; [discriminate|]. intros _.
      destruct (viteConfigured env lib sitePath); simpl; [reflexivity|].
      now rewrite Hempty.
    + split; [|discriminate]. intros tp H. injection H as <-.
      now rewrite Hempty.
  - split; [discriminate|]. intros _.
    destruct (viteConfigured env lib sitePath); reflexivity.
  - split; [discriminate|]. intros _.
    destruct (viteConfigured env lib sitePath); reflexivity.
Qed.

Lemma X20_vite_types_written_when_wanted_witness :
  generateViteTypes Example.env0 Sample.paths "web"
                    (Some (Vite.mk (Some "types/env.d.ts")))
                    Sample.variables
  = [ MkdirRecursive "/site/web/types";
      WriteFile "/site/web/types/env.d.ts"
                (viteTypesContent Sample.variables) ]
  /\ generateViteTypes Example.env0 Sample.paths "web"
                       (Some (Vite.mk (Some ""))) Sample.variables = [].
Proof.
  split.
  - exact (proj1 (X20_vite_types_written_when_wanted
                    Example.env0 Sample.paths "web"
                    (Some (Vite.mk (Some "types/env.d.ts")))
                    Sample.variables)
                 "types/env.d.ts" eq_refl).
  - exact (proj2 (X20_vite_types_written_when_wanted
                    Example.env0 Sample.paths "web"
                    (Some (Vite.mk (Some ""))) Sample.variables)
                 eq_refl).
Defined.

Lemma contains_prefix (line p s : string) :
  (exists before after, s = before ^^ line ^^ after) ->
  exists before after, p ^^ s = before ^^ line ^^ after.
Proof.
  intros (before & after & ->). exists (p ^^ before), after.
  now rewrite append_assoc.
Qed.

Lemma contains_suffix (line s q : string) :
  (exists before after, s = before ^^ line ^^ after) ->
  exists before after, s ^^ q = before ^^ line ^^ after.
Proof.
  intros (before & after & ->). exists before, (after ^^ q).
  now rewrite !append_assoc.
Qed.

(** X21. The generated file declares every environment variable by name,
    and only the names reach it: two environments with the same keys give
    the same content, whatever their values. *)
Theorem X21_vite_types_declare_keys_only (environment : Environment) :
  (forall key,
      In key (map fst environment) ->
      exists before after,
        viteTypesContent environment
        = before ^^ readonlyLine key ^^ after)
  /\ forall environment',
      map fst environment' = map fst environment ->
      viteTypesContent environment' = viteTypesContent environment.
Proof.
  split.
  - intros key Hin. unfold viteTypesContent.
    do 7 apply contains_prefix. apply contains_suffix.
    apply concat_contains. now apply in_map.
  - intros environment' Hkeys. unfold viteTypesContent. now rewrite Hkeys.
Qed.

Lemma X21_vite_types_declare_keys_only_witness :
  exists before after,
    viteTypesContent Sample.variables
    = before ^^ "  readonly TOKEN: string" ^^ after.
Proof.
  apply (proj1 (X21_vite_types_declare_keys_only Sample.variables) "TOKEN").
  simpl. tauto.
Defined.

(** ** The order of the plan *)

Lemma filter_nothing_uploaded (files : list string) :
  filter (fun file => negb (Js.includes [] file)) files = files.
Proof.
  induction files as [|f files IH]; [reflexivity|].
  cbn [filter]. change (Js.includes [] f) with false. cbn [negb].
  now rewrite IH.
Qed.

(** X22. Without user rules the plan lists the files of the built-in
    [*.js]/[*.css] rule first, in the order glob returns them, and after
    them the remaining files of the catch-all, in the order glob returns
    those. *)
Theorem X22_default_plan_order (env : Env) (outputPath : string)
        (assets : option Assets.t) (plan : list BucketFile.t) :
  userFileOptions assets = [] ->
  uploadAssets env outputPath assets = Ok plan ->
  map BucketFile.key plan
  = matchedFiles env outputPath jsCssRule
    ++ filter (fun file =>
                 negb (Js.includes (matchedFiles env outputPath jsCssRule)
                                   file))
              (treeFiles env outputPath).
Proof.
  intros Huser Hplan.
  rewrite (uploadAssets_keys _ _ _ _ Hplan).
  unfold buildFileOptions. rewrite Huser.
  cbn [app rev uploadedKeys]. now rewrite filter_nothing_uploaded.
Qed.

Lemma X22_default_plan_order_witness :
  exists plan,
    uploadAssets Example.env0 "dist" None = Ok plan
    /\ map BucketFile.key plan
       = [ "app.js"; "index.html"; "logo.png";
           ".well-known/site-association-json"; "app.webmanifest" ].
Proof.
  destruct (uploadAssets Example.env0 "dist" None) as [plan|e] eqn:Hplan;
    [|vm_compute in Hplan; discriminate].
  exists plan. split; [reflexivity|].
  rewrite (X22_default_plan_order Example.env0 "dist" None plan
                                  eq_refl Hplan).
  vm_compute. reflexivity.
Defined.

(** ** Content types of hidden files *)

Lemma get_after_char (pre rest : string) (d : ascii) (j : nat) :
  String.get (String.length pre + 1 + j) (pre ^^ String d rest)
  = String.get j rest.
Proof. induction pre as [|a pre IH]; simpl; [reflexivity | exact IH]. Qed.

Section Dotfile.

Variables pre body : string.
Hypothesis body_plain : plain body = true.
Hypothesis pre_dir : pre = "" \/ exists dir, pre = dir ^^ "/".

Abbreviation dotfile := (pre ^^ String Path.CHAR_DOT body).
Abbreviation P := (String.length pre).
Abbreviation N := (String.length pre + 1 + String.length body).

Lemma dotfile_length : String.length dotfile = N.
Proof. rewrite length_append. simpl. lia. Qed.

Lemma dotfile_slash (i : nat) :
  S i = P -> String.get i dotfile = Some Path.CHAR_FORWARD_SLASH.
Proof.
  intros Hi. destruct pre_dir as [Hpre|[dir Hpre]].
  - rewrite Hpre in Hi. discriminate.
  - rewrite Hpre in *. rewrite length_append in Hi. simpl in Hi.
    replace i with (String.length dir) by lia.
    rewrite append_assoc. simpl. apply get_stem_char.
Qed.

Lemma ext_loop_dotfile :
  forall n st,
    n <= N -> P <= n -> dotfile_scan_inv P N n st ->
    Path.preDotState (Path.ext_loop dotfile n st) = 0%Z.
Proof.
  induction n as [|i IH]; intros st Hn HP Hinv.
  - simpl. apply Hinv. lia.
  - simpl.
    destruct (get_Some_lt dotfile i) as [code Hget];
      [rewrite dotfile_length; lia|].
    rewrite Hget.
    unfold Path.ext_step. destruct st as [sd sp en ms pd].
    unfold dotfile_scan_inv in Hinv. simpl in Hinv.
    destruct Hinv as (HA & HB).
    cbn [Path.startDot Path.startPart Path.end_ Path.matchedSlash
         Path.preDotState].
    assert (Hcases : P + 1 <= i \/ i = P \/ S i = P) by lia.
    destruct Hcases as [Hi|[Hi|Hi]].
    + replace i with (P + 1 + (i - (P + 1))) in Hget by lia.
      rewrite get_after_char in Hget.
      destruct (plain_get body body_plain _ _ Hget) as [Hnd Hns].
      rewrite (proj2 (Ascii.eqb_neq _ _) Hns), (proj2 (Ascii.eqb_neq _ _) Hnd).
      destruct (HA ltac:(lia)) as (-> & -> & HeN & HeLt).
      destruct (Nat.eq_dec (S i) N) as [HN|HN].
      * rewrite (HeN HN). cbn.
        apply IH; [lia | lia |].
        unfold dotfile_scan_inv; simpl.
        repeat split; intros; first [lia | reflexivity].
      * destruct (HeLt ltac:(lia)) as [-> ->].
        destruct (Z.of_nat N =? -1)%Z eqn:E; [apply Z.eqb_eq in E; lia|].
        cbn.
        apply IH; [lia | lia |].
        unfold dotfile_scan_inv; simpl.
        repeat split; intros; first [lia | reflexivity].
    + subst i. rewrite get_stem_char in Hget. injection Hget as <-.
      change (Ascii.eqb Path.CHAR_DOT Path.CHAR_FORWARD_SLASH) with false.
      change (Ascii.eqb Path.CHAR_DOT Path.CHAR_DOT) with true.
      cbv iota.
      destruct (HA ltac:(lia)) as (-> & -> & HeN & HeLt).
      destruct (Nat.eq_dec (S P) N) as [HN|HN].
      * rewrite (HeN HN). cbn.
        apply IH; [lia | lia |].
        unfold dotfile_scan_inv; simpl.
        repeat split; intros; first [lia | reflexivity].
      * destruct (HeLt ltac:(lia)) as [-> ->].
        destruct (Z.of_nat N =? -1)%Z eqn:E; [apply Z.eqb_eq in E; lia|].
        cbn.
        apply IH; [lia | lia |].
        unfold dotfile_scan_inv; simpl.
        repeat split; intros; first [lia | reflexivity].
    + rewrite (dotfile_slash i Hi) in Hget. injection Hget as <-.
      change (Ascii.eqb Path.CHAR_FORWARD_SLASH Path.CHAR_FORWARD_SLASH)
        with true.
      cbv iota.
      destruct (HB Hi) as (Hpd & _ & ->). simpl. exact Hpd.
Qed.

Lemma extname_dotfile : Path.extname dotfile = "".
Proof.
  unfold Path.extname. rewrite dotfile_length.
  assert (Hinit : dotfile_scan_inv P N N Path.ext_init).
  { unfold dotfile_scan_inv. simpl. repeat split; intros; lia. }
  pose proof (ext_loop_dotfile N Path.ext_init (le_n _) ltac:(lia) Hinit)
    as Hpd.
  destruct (Path.ext_loop dotfile N Path.ext_init) as [sd sp en ms pd].
  simpl in *. subst pd.
  now rewrite !orb_true_r.
Qed.

Lemma dotfile_not_siteAssociation :
  Js.endsWith dotfile siteAssociation = false.
Proof.
  destruct (Js.endsWith dotfile siteAssociation) eqn:Hends; [|reflexivity].
  exfalso.
  destruct (le_lt_dec (String.length body) 31) as [Hshort|Hlong].
  - destruct (endsWith_get dotfile siteAssociation
                           (32 - String.length body) Hends)
      as [Hlen Hget];
      [change (String.length siteAssociation) with 33; lia|].
    rewrite dotfile_length in Hlen, Hget.
    change (String.length siteAssociation) with 33 in Hlen, Hget.
    replace (32 - String.length body + (N - 33)) with P in Hget by lia.
    rewrite get_stem_char in Hget.
    apply (siteAssociation_inner_plain (32 - String.length body));
      [lia | exact Hget].
  - destruct (endsWith_get dotfile siteAssociation 11 Hends)
      as [Hlen Hget];
      [change (String.length siteAssociation) with 33; lia|].
    rewrite dotfile_length in Hlen, Hget.
    change (String.length siteAssociation) with 33 in Hlen, Hget.
    replace (11 + (N - 33)) with (P + 1 + (String.length body - 22))
      in Hget by lia.
    rewrite get_after_char in Hget. simpl in Hget. symmetry in Hget.
    destruct (plain_get body body_plain _ _ Hget) as [_ Hns].
    now apply Hns.
Qed.

End Dotfile.

(** X23. A hidden file whose name has no dot besides the leading one, at
    the top of the output directory or in any subdirectory, gets
    [application/octet-stream] without charset for every text encoding:
    the leading dot does not start an extension. *)
Theorem X23_dotfile_is_octet_stream (pre body textEncoding : string) :
  pre = "" \/ (exists dir, pre = dir ^^ "/") ->
  plain body = true ->
  getContentType (pre ^^ String Path.CHAR_DOT body) textEncoding
  = "application/octet-stream".
Proof.
  intros Hpre Hplain. unfold getContentType, contentTypeExt.
  change ".well-known/site-association-json" with siteAssociation.
  rewrite (dotfile_not_siteAssociation pre body Hplain).
  rewrite (extname_dotfile pre body Hplain Hpre). reflexivity.
Qed.

Lemma X23_dotfile_is_octet_stream_witness :
  getContentType ".htaccess" "utf-8" = "application/octet-stream"
  /\ getContentType "blog/.nojekyll" "utf-8" = "application/octet-stream".
Proof.
  split.
  - apply (X23_dotfile_is_octet_stream "" "htaccess" "utf-8");
      [now left | reflexivity].
  - apply (X23_dotfile_is_octet_stream "blog/" "nojekyll" "utf-8");
      [right; now exists "blog" | reflexivity].
Defined.
